(** * TodoJo Pro: the task store, the task-list filter, the status toggle,
      the upcoming-deadlines report and the CSV export of [todojo.py]

    The application keeps one SQLite table [tasks] and re-runs its whole
    script on every interaction.  The embedding below follows the script
    section by section:

    - [Text]      Python string operations the script calls ([str.strip],
                  truthiness, [Series.str.contains] with [case=False]);
    - [Dates]     [datetime.date] values and their ISO text;
    - [Store]     the table and the helpers [fetch_tasks], [add_task],
                  [update_task], [delete_task];
    - [AddForm]   the submit handler of the "Add Task" form;
    - [TaskList]  the sidebar filters and the status checkbox;
    - [Analytics] the "Upcoming Deadlines" block;
    - [CsvExport] the "Export CSV" button;
    - [EditForm]  the edit form's lookup and the fields it saves;
    - [EditSection] the "Edit" buttons and the edit form within one run;
    - [Defaults]  the widgets' initial values.

    Characters are code points below 256; SQLite and the Python libraries are
    modelled as far as the script relies on them, and each place says so.
    The regular-expression module behind [Series.str.contains] is a
    parameter ([Text.re_module]): what is proved holds for every such
    module, and where a match matters, for every module that reads patterns
    of literal characters and dots as Python's [re] does. *)

From Stdlib Require Import ZArith List String Ascii Bool Lia.
From Stdlib Require Import Sorting.Sorted Sorting.Permutation.
From Stdlib Require Import DecimalString.
Import ListNotations.

Local Open Scope string_scope.
Local Open Scope Z_scope.

(* ------------------------------------------------------------------ *)
(** ** Python string operations *)

Module Text.

(** [str.isspace] on one character, for code points below 256. *)
Definition isspace (c : ascii) : bool :=
  let n := N_of_ascii c in
  ((9 <=? n) && (n <=? 13) || (28 <=? n) && (n <=? 32)
   || (n =? 133) || (n =? 160))%N.

(** [s.lstrip()] *)
Fixpoint lstrip (s : string) : string :=
  match s with
  | EmptyString => EmptyString
  | String c s' => if isspace c then lstrip s' else s
  end.

(** [s.rstrip()] *)
Fixpoint rstrip (s : string) : string :=
  match s with
  | EmptyString => EmptyString
  | String c s' =>
      match rstrip s' with
      | EmptyString => if isspace c then EmptyString else String c EmptyString
      | r => String c r
      end
  end.

(** [s.strip()] *)
Definition strip (s : string) : string := rstrip (lstrip s).

(** Truthiness of a [str]: [bool(s)]. *)
Definition truthy (s : string) : bool :=
  match s with
  | EmptyString => false
  | String _ _ => true
  end.

(** Every character of [s] is whitespace (true of the empty string). *)
Fixpoint all_space (s : string) : bool :=
  match s with
  | EmptyString => true
  | String c s' => isspace c && all_space s'
  end.

(** Simple lower-casing of one code point below 256: the letters [A-Z] and
    the Latin-1 capitals (192..222 without the multiplication sign 215). *)
Definition lower (c : ascii) : ascii :=
  let n := N_of_ascii c in
  if ((65 <=? n) && (n <=? 90)
      || (192 <=? n) && (n <=? 222) && negb (n =? 215))%N
  then ascii_of_N (n + 32) else c.

(** Two characters match under [re.IGNORECASE]. *)
Definition eq_nocase (a b : ascii) : bool :=
  Ascii.eqb (lower a) (lower b).

Definition LF : ascii := ascii_of_N 10.

(** The characters with a special meaning in a Python regular expression,
    the dot apart. *)
Definition is_meta (c : ascii) : bool :=
  existsb (Ascii.eqb c)
    (list_ascii_of_string "^$*+?{}[]\|()").

(** The patterns [re_search] below gives a meaning to: no special
    character but the dot. *)
Fixpoint in_fragment (pat : string) : bool :=
  match pat with
  | EmptyString => true
  | String c p => negb (is_meta c) && in_fragment p
  end.

(** The pattern has no special character at all: it stands for itself. *)
Fixpoint is_literal (pat : string) : bool :=
  match pat with
  | EmptyString => true
  | String c p => negb (is_meta c) && negb (Ascii.eqb c ".") && is_literal p
  end.

(** The pattern matches a prefix of [s] ([re.match] with [re.IGNORECASE]): a
    dot stands for any character but a line feed, any other character for
    itself in either case. *)
Fixpoint match_here (pat s : string) : bool :=
  match pat, s with
  | EmptyString, _ => true
  | String _ _, EmptyString => false
  | String p pat', String c s' =>
      (if Ascii.eqb p "." then negb (Ascii.eqb c LF) else eq_nocase p c)
      && match_here pat' s'
  end.

(** [re.search(pat, s, re.IGNORECASE) is not None] on the fragment. *)
Fixpoint re_search (pat s : string) : bool :=
  match_here pat s
  || match s with
     | EmptyString => false
     | String _ s' => re_search pat s'
     end.

(** Python's [re] as the page uses it, through pandas: whether
    [re.compile(pat, re.IGNORECASE)] accepts the pattern, and whether the
    compiled pattern's [search] finds a match in a text.  The module is a
    library; the page is modelled for any such module. *)
Record re_module : Type := mk_re {
  compiles : string -> bool;
  search : string -> string -> bool
}.

(** What is used of [re] where a property depends on a match: it accepts
    the patterns whose only special character is the dot, and on them it
    finds what [re_search] finds. *)
Definition dots_and_literals (re : re_module) : Prop :=
  forall pat, in_fragment pat = true ->
    compiles re pat = true /\ forall s, search re pat s = re_search pat s.

(** [x.lower()] over the whole string, by the simple mapping. *)
Fixpoint lower_str (s : string) : string :=
  match s with
  | EmptyString => EmptyString
  | String c s' => String (lower c) (lower_str s')
  end.

(** [sub] is a prefix of [s]. *)
Fixpoint starts_with (sub s : string) : bool :=
  match sub, s with
  | EmptyString, _ => true
  | String _ _, EmptyString => false
  | String a sub', String b s' => Ascii.eqb a b && starts_with sub' s'
  end.

(** [sub in s]: plain substring containment. *)
Fixpoint contains (sub s : string) : bool :=
  starts_with sub s
  || match s with
     | EmptyString => false
     | String _ s' => contains sub s'
     end.

(** Case-insensitive containment, as the words "contains it" read. *)
Definition contains_nocase (sub s : string) : bool :=
  contains (lower_str sub) (lower_str s).

(** Number of line feeds in [s]: the number of lines of a text in which
    every line is terminated. *)
Fixpoint count_lf (s : string) : nat :=
  match s with
  | EmptyString => O
  | String c s' => ((if Ascii.eqb c LF then 1 else 0) + count_lf s')%nat
  end.

End Text.

(* ------------------------------------------------------------------ *)
(** ** Dates and timestamps *)

Module Dates.

(** A [datetime.date], as its proleptic Gregorian ordinal
    ([date.toordinal()], day 1 is 0001-01-01).  The table holds the ISO text
    [due.isoformat()] and [fetch_tasks] parses it back to a [date]; the
    embedding keeps the date itself. *)
Definition date : Type := Z.

(** [a <= b] on dates. *)
Definition date_le (a b : date) : bool := a <=? b.

(** [d + pd.Timedelta(days=n)] *)
Definition add_days (d : date) (n : Z) : date := d + n.

(** A [datetime.datetime], as [datetime.now()] returns it. *)
Record datetime : Type := mk_datetime {
  dt_date : date;
  dt_hour : Z;
  dt_minute : Z;
  dt_second : Z;
  dt_microsecond : Z
}.

(** [str(n)] for an integer. *)
Definition dec (n : Z) : string := NilZero.string_of_int (Z.to_int n).

Fixpoint zeros (n : nat) : string :=
  match n with
  | O => EmptyString
  | S n' => String "0" (zeros n')
  end.

(** [s.zfill(w)] for the text of a non-negative number. *)
Definition zfill (w : nat) (s : string) : string :=
  zeros (w - String.length s) ++ s.

Definition DAYS_IN_MONTH : list Z :=
  [-1; 31; 28; 31; 30; 31; 30; 31; 31; 30; 31; 30; 31].
Definition DAYS_BEFORE_MONTH : list Z :=
  [-1; 0; 31; 59; 90; 120; 151; 181; 212; 243; 273; 304; 334].

Definition b2z (b : bool) : Z := if b then 1 else 0.

(** Year, month and day of an ordinal, as the [datetime] module computes
    them. *)
Definition ord2ymd (ordinal : date) : Z * Z * Z :=
  let n := ordinal - 1 in
  let n400 := n / 146097 in
  let n := n mod 146097 in
  let year := n400 * 400 + 1 in
  let n100 := n / 36524 in
  let n := n mod 36524 in
  let n4 := n / 1461 in
  let n := n mod 1461 in
  let n1 := n / 365 in
  let n := n mod 365 in
  let year := year + n100 * 100 + n4 * 4 + n1 in
  if (n1 =? 4) || (n100 =? 4) then (year - 1, 12, 31)
  else
    let leapyear := (n1 =? 3) && (negb (n4 =? 24) || (n100 =? 3)) in
    let month := Z.shiftr (n + 50) 5 in
    let preceding :=
      nth (Z.to_nat month) DAYS_BEFORE_MONTH (-1)
      + b2z ((2 <? month) && leapyear) in
    if n <? preceding then
      let month := month - 1 in
      let preceding :=
        preceding
        - (nth (Z.to_nat month) DAYS_IN_MONTH (-1)
           + b2z ((month =? 2) && leapyear)) in
      (year, month, n - preceding + 1)
    else (year, month, n - preceding + 1).

(** [d.isoformat()], which is also [str(d)]: YYYY-MM-DD. *)
Definition isoformat (d : date) : string :=
  let '(y, m, dd) := ord2ymd d in
  zfill 4 (dec y) ++ "-" ++ zfill 2 (dec m) ++ "-" ++ zfill 2 (dec dd).

End Dates.

(* ------------------------------------------------------------------ *)
(** ** The table [tasks] and its helpers *)

Module Store.
Import Dates.

(** One row of [tasks], in the column order of [CREATE TABLE].  [title] is
    [TEXT NOT NULL]; the other text columns may hold [NULL] ([None]).  The
    script writes [due_date] and [created_at] only as the ISO text of a date
    and of [datetime.now()]; a [created_at] cell is that timestamp or
    [NULL].  The same record is a row of the DataFrame [fetch_tasks]
    returns, where [None] in [created_at] is pandas' [NaT]. *)
Record task : Type := mk_task {
  id : Z;
  title : string;
  description : option string;
  priority : option string;
  due_date : date;
  tags : option string;
  status : option string;
  created_at : option datetime
}.

(** The column names, as [SELECT *] lists them. *)
Definition columns : list string :=
  ["id"; "title"; "description"; "priority"; "due_date"; "tags"; "status";
   "created_at"].

(** The database: the rows in table order, and the counter that
    [AUTOINCREMENT] keeps in [sqlite_sequence] (the largest [id] the table
    has ever held). *)
Record store : Type := mk_store {
  rows : list task;
  seq : Z
}.

Inductive sqlite_error : Type :=
| OperationalError
| IntegrityError.

(** A call either returns or raises. *)
Inductive result (A : Type) : Type :=
| Ok (a : A)
| Raise (e : sqlite_error).
Arguments Ok {A} a.
Arguments Raise {A} e.

(** The largest [INTEGER PRIMARY KEY] SQLite can assign. *)
Definition MAX_ROWID : Z := 9223372036854775807.

(** The shape of [t.isoformat()]: the text ends in a fraction of a second
    unless the microsecond is 0. *)
Definition has_fraction (t : datetime) : bool :=
  negb (dt_microsecond t =? 0).

(** The format [read_sql] parses the [created_at] column with: pandas takes
    it from the first cell that is not [NULL] ([true]: with a fraction). *)
Fixpoint inferred_format (col : list (option datetime)) : option bool :=
  match col with
  | [] => None
  | Some t :: _ => Some (has_fraction t)
  | None :: rest => inferred_format rest
  end.

(** One [created_at] cell read with that format: a text of the other shape
    does not parse and is coerced to [NaT]. *)
Definition parse_created_at (format : option bool)
    (cell : option datetime) : option datetime :=
  match cell, format with
  | Some t, Some f => if Bool.eqb (has_fraction t) f then Some t else None
  | _, _ => None
  end.

(** A table row as it is read into the DataFrame.  The [due_date] texts all
    have the shape YYYY-MM-DD and parse back to the date. *)
Definition read_row (format : option bool) (r : task) : task :=
  {| id := id r; title := title r; description := description r;
     priority := priority r; due_date := due_date r; tags := tags r;
     status := status r;
     created_at := parse_created_at format (created_at r) |}.

(** [fetch_tasks()]: every row, in table order, with the two date columns
    parsed. *)
Definition fetch_tasks (db : store) : list task :=
  map (read_row (inferred_format (map created_at (rows db)))) (rows db).

Definition ids (db : store) : list Z := map id (rows db).

(** The largest [id] in use or ever used. *)
Definition last_id (db : store) : Z :=
  fold_right Z.max (Z.max 0 (seq db)) (ids db).

(** [add_task(title, desc, prio, due, tags)], called at the time [now].
    [AUTOINCREMENT] assigns one more than the largest [id] ever held and
    refuses the insert once [MAX_ROWID] has been used.  The function has no
    [return]: the caller gets [None], here the first component. *)
Definition add_task (title_ desc : string) (prio : string) (due : date)
    (tags_ : string) (now : datetime) (db : store)
  : result (option Z * store) :=
  let new_id := last_id db + 1 in
  if MAX_ROWID <? new_id then Raise OperationalError
  else
    Ok (None,
        {| rows := (rows db ++
                    [{| id := new_id; title := title_;
                        description := Some desc; priority := Some prio;
                        due_date := due; tags := Some tags_;
                        status := Some "Pending";
                        created_at := Some now |}])%list;
           seq := new_id |}).

(** One keyword argument of [update_task]: a column other than [id] and the
    value bound to its placeholder. *)
Inductive assignment : Type :=
| set_title (v : option string)
| set_description (v : option string)
| set_priority (v : option string)
| set_due_date (v : date)
| set_tags (v : option string)
| set_status (v : option string)
| set_created_at (v : option datetime).

Definition column_name (a : assignment) : string :=
  match a with
  | set_title _ => "title"
  | set_description _ => "description"
  | set_priority _ => "priority"
  | set_due_date _ => "due_date"
  | set_tags _ => "tags"
  | set_status _ => "status"
  | set_created_at _ => "created_at"
  end.

(** [sep.join(parts)] *)
Fixpoint join (sep : string) (parts : list string) : string :=
  match parts with
  | [] => ""
  | [p] => p
  | p :: ps => p ++ sep ++ join sep ps
  end.

(** [cols = ", ".join(f"{k}=?" for k in kwargs)] *)
Definition cols (kwargs : list assignment) : string :=
  join ", " (map (fun a => column_name a ++ "=?") kwargs).

(** [f"UPDATE tasks SET {cols} WHERE id=?"] *)
Definition update_sql (kwargs : list assignment) : string :=
  "UPDATE tasks SET " ++ cols kwargs ++ " WHERE id=?".

(** SQLite parses the statement: the list after [SET] must not be empty
    (the column names are those of the table by the type of [kwargs]). *)
Definition well_formed (set_list : string) : bool := Text.truthy set_list.

(** The row after one assignment.  A [NULL] title is never stored: the
    [NOT NULL] constraint rejects the statement, see [title_null]. *)
Definition assign (r : task) (a : assignment) : task :=
  match a with
  | set_title (Some v) =>
      mk_task (id r) v (description r) (priority r) (due_date r) (tags r)
        (status r) (created_at r)
  | set_title None => r
  | set_description v =>
      mk_task (id r) (title r) v (priority r) (due_date r) (tags r)
        (status r) (created_at r)
  | set_priority v =>
      mk_task (id r) (title r) (description r) v (due_date r) (tags r)
        (status r) (created_at r)
  | set_due_date v =>
      mk_task (id r) (title r) (description r) (priority r) v (tags r)
        (status r) (created_at r)
  | set_tags v =>
      mk_task (id r) (title r) (description r) (priority r) (due_date r) v
        (status r) (created_at r)
  | set_status v =>
      mk_task (id r) (title r) (description r) (priority r) (due_date r)
        (tags r) v (created_at r)
  | set_created_at v =>
      mk_task (id r) (title r) (description r) (priority r) (due_date r)
        (tags r) (status r) v
  end.

(** The statement would store [NULL] in [title]: of several assignments to
    one column SQLite keeps the rightmost. *)
Definition title_null (kwargs : list assignment) : bool :=
  fold_left (fun acc a =>
               match a with
               | set_title None => true
               | set_title (Some _) => false
               | _ => acc
               end) kwargs false.

(** The rows after [UPDATE tasks SET ... WHERE id=?]; [None] when a matching
    row would break [NOT NULL]. *)
Fixpoint update_rows (i : Z) (kwargs : list assignment) (rs : list task)
  : option (list task) :=
  match rs with
  | [] => Some []
  | r :: rs' =>
      match update_rows i kwargs rs' with
      | None => None
      | Some rs'' =>
          if id r =? i then
            if title_null kwargs then None
            else Some (fold_left assign kwargs r :: rs'')
          else Some (r :: rs'')
      end
  end.

(** [update_task(id, **kwargs)]: a statement SQLite cannot parse raises
    [OperationalError], a broken constraint raises [IntegrityError] and
    leaves the table as it was; otherwise every row with this [id] is
    rewritten. *)
Definition update_task (i : Z) (kwargs : list assignment) (db : store)
  : result store :=
  if well_formed (cols kwargs) then
    match update_rows i kwargs (rows db) with
    | None => Raise IntegrityError
    | Some rs => Ok {| rows := rs; seq := seq db |}
    end
  else Raise OperationalError.

(** [delete_task(id)]: [DELETE FROM tasks WHERE id=?]. *)
Definition delete_task (i : Z) (db : store) : result store :=
  Ok {| rows := filter (fun r => negb (id r =? i)) (rows db);
        seq := seq db |}.

End Store.

(* ------------------------------------------------------------------ *)
(** ** What a handler shows *)

(** The calls [st.error], [st.success], [st.info] and [st.write] with their
    text (the pictographs in front of some texts are left out). *)
Inductive notice : Type :=
| st_error (text : string)
| st_success (text : string)
| st_info (text : string)
| st_write (text : string).

(* ------------------------------------------------------------------ *)
(** ** The "Add Task" form *)

Module AddForm.
Import Text Dates Store.

(** The body of [if submitted:] in the form [add_form], run at the time
    [now].  The result is the notice shown and the database afterwards; an
    exception of [add_task] passes through. *)
Definition add_form_submit (title_ : string) (due : date) (desc : string)
    (priority_ : string) (tags_in : string) (now : datetime) (db : store)
  : result (notice * store) :=
  if negb (truthy (strip title_)) then
    Ok (st_error "Title is required", db)
  else
    match add_task (strip title_) (strip desc) priority_ due (strip tags_in)
            now db with
    | Ok (_, db') => Ok (st_success "Task added!", db')
    | Raise e => Raise e
    end.

End AddForm.

(* ------------------------------------------------------------------ *)
(** ** The "Task List" tab: filters and the status checkbox *)

Module TaskList.
Import Text Dates Store.

(** The sidebar widgets: two multiselects, a date input that may be empty
    ([None]) and a text input. *)
Record filters : Type := mk_filters {
  status_f : list string;
  prio_f : list string;
  due_f : option date;
  tag_f : string
}.

(** [Series.isin(values)] on one cell: a [NULL] cell is in no list of
    strings. *)
Definition isin (values : list string) (cell : option string) : bool :=
  match cell with
  | None => false
  | Some s => existsb (String.eqb s) values
  end.

Section WithRe.

(** The regular-expression module pandas calls. *)
Variable re : re_module.

(** [Series.str.contains(pat, case=False, na=False)] on one cell: [pat] is a
    regular expression (the default [regex=True]), compiled beforehand and
    searched without regard to case; a [NULL] cell gives [na]. *)
Definition str_contains (pat : string) (cell : option string) : bool :=
  match cell with
  | None => false
  | Some s => search re pat s
  end.

(** The block under [# Apply filters], on the rows [fetch_tasks] returned.
    [None] when [tag_f] is not a valid pattern: [re.compile] raises and the
    page stops. *)
Definition apply_filters (f : filters) (df : list task)
  : option (list task) :=
  let df := filter (fun r => isin (status_f f) (status r)) df in
  let df := filter (fun r => isin (prio_f f) (priority r)) df in
  let df :=
    match due_f f with
    | Some d => filter (fun r => date_le (due_date r) d) df
    | None => df
    end in
  if truthy (tag_f f) then
    if compiles re (tag_f f)
    then Some (filter (fun r => str_contains (tag_f f) (tags r)) df)
    else None
  else Some df.

End WithRe.

(** The four conditions of the filter contract on one task, the tag
    condition read as case-insensitive containment. *)
Definition satisfies (f : filters) (r : task) : bool :=
  isin (status_f f) (status r)
  && isin (prio_f f) (priority r)
  && match due_f f with
     | None => true
     | Some d => date_le (due_date r) d
     end
  && (negb (truthy (tag_f f))
      || match tags r with
         | None => false
         | Some t => contains_nocase (tag_f f) t
         end).

(** Equality of a cell with a string, [cell == s] in Python. *)
Definition cell_eqb (cell : option string) (s : string) : bool :=
  match cell with
  | None => false
  | Some c => String.eqb c s
  end.

(** The status the checkbox of a row stands for. *)
Definition new_status (checked : bool) (row_status : option string)
  : string :=
  if checked then "Completed"
  else if cell_eqb row_status "In Progress" then "In Progress"
       else "Pending".

(** The checkbox of one displayed row: the row is the one loaded before the
    tab was drawn, the update goes to the database as it is now. *)
Definition status_checkbox (row : task) (checked : bool) (db : store)
  : result (option notice * store) :=
  let ns := new_status checked (status row) in
  if negb (cell_eqb (status row) ns) then
    match update_task (id row) [set_status (Some ns)] db with
    | Ok db' => Ok (Some (st_success "Status updated!"), db')
    | Raise e => Raise e
    end
  else Ok (None, db).

(** The "Delete" button of one displayed row. *)
Definition delete_button (row : task) (db : store)
  : result (option notice * store) :=
  match delete_task (id row) db with
  | Ok db' => Ok (Some (st_success "Deleted!"), db')
  | Raise e => Raise e
  end.

End TaskList.

(* ------------------------------------------------------------------ *)
(** ** The "Analytics" tab: upcoming deadlines *)

Module Analytics.
Import Text Dates Store.

(** [Series.fillna("Unknown")] on one cell. *)
Definition fill_unknown (cell : option string) : option string :=
  match cell with
  | None => Some "Unknown"
  | Some s => Some s
  end.

(** [fetch_tasks().fillna({"status":"Unknown","priority":"Unknown"})] *)
Definition fillna (df : list task) : list task :=
  map (fun r =>
         mk_task (id r) (title r) (description r) (fill_unknown (priority r))
           (due_date r) (tags r) (fill_unknown (status r)) (created_at r))
      df.

(** One line of the table: the columns
    [["title","due_date","priority","status"]]. *)
Record deadline : Type := mk_deadline {
  d_title : string;
  d_due_date : date;
  d_priority : option string;
  d_status : option string
}.

Definition select (r : task) : deadline :=
  mk_deadline (title r) (due_date r) (priority r) (status r).

Fixpoint insert_by_due (x : deadline) (l : list deadline) : list deadline :=
  match l with
  | [] => [x]
  | y :: l' =>
      if date_le (d_due_date x) (d_due_date y) then x :: l
      else y :: insert_by_due x l'
  end.

(** [.sort_values("due_date")]: ascending.  The order pandas gives to rows
    with equal dates is not fixed by its default algorithm; this sort keeps
    them in table order, and nothing below depends on that. *)
Definition sort_values_due (l : list deadline) : list deadline :=
  fold_right insert_by_due [] l.

(** [df_all[df_all.due_date <= date.today() + pd.Timedelta(days=7)]] *)
Definition upcoming (today : date) (df_all : list task) : list task :=
  filter (fun r => date_le (due_date r) (add_days today 7)) df_all.

(** What the block shows: a sentence or a table. *)
Inductive shown : Type :=
| sentence (n : notice)
| st_table (lines : list deadline).

(** The block under [# Upcoming tasks], on the day [today]. *)
Definition upcoming_deadlines (today : date) (db : store) : shown :=
  let df_all := fillna (fetch_tasks db) in
  let up := upcoming today df_all in
  match up with
  | [] => sentence (st_write "No tasks due in the next 7 days.")
  | _ :: _ => st_table (sort_values_due (map select up))
  end.

(** The tasks the block reports. *)
Definition reported (s : shown) : list deadline :=
  match s with
  | sentence _ => []
  | st_table lines => lines
  end.

(** Ascending by due date. *)
Definition due_le (a b : deadline) : Prop := d_due_date a <= d_due_date b.

(** The row of the table a task gives: its title and due date, and its
    priority and status with "Unknown" for a missing one. *)
Definition line_of (r : task) : deadline :=
  mk_deadline (title r) (due_date r) (fill_unknown (priority r))
    (fill_unknown (status r)).

End Analytics.

(* ------------------------------------------------------------------ *)
(** ** The "Export CSV" button *)

Module CsvExport.
Import Text Dates Store.

Definition COMMA : ascii := ascii_of_N 44.
Definition QUOTE : ascii := ascii_of_N 34.

(** The characters that make the [csv] writer quote a field under
    [QUOTE_MINIMAL]: the delimiter, the quote character and the line
    terminator (a line feed). *)
Definition special (c : ascii) : bool :=
  Ascii.eqb c COMMA || Ascii.eqb c QUOTE || Ascii.eqb c LF.

Fixpoint needs_quote (s : string) : bool :=
  match s with
  | EmptyString => false
  | String c s' => special c || needs_quote s'
  end.

(** Every quote character doubled. *)
Fixpoint double_quotes (s : string) : string :=
  match s with
  | EmptyString => EmptyString
  | String c s' =>
      if Ascii.eqb c QUOTE then String QUOTE (String QUOTE (double_quotes s'))
      else String c (double_quotes s')
  end.

(** One field as the writer puts it out. *)
Definition quote_field (s : string) : string :=
  if needs_quote s
  then String QUOTE (double_quotes s ++ String QUOTE EmptyString)
  else s.

(** A text cell: [NULL] is written as the empty [na_rep]. *)
Definition text_cell (cell : option string) : string :=
  match cell with
  | None => ""
  | Some s => s
  end.

(** The finest unit the [created_at] column needs; pandas formats the whole
    column by it. *)
Inductive resolution : Type := RESO_DAY | RESO_SEC | RESO_MS | RESO_US.

Definition get_resolution (ts : list datetime) : resolution :=
  if forallb (fun t => dt_microsecond t =? 0) ts then
    if forallb (fun t => (dt_hour t =? 0) && (dt_minute t =? 0)
                         && (dt_second t =? 0)) ts
    then RESO_DAY else RESO_SEC
  else if forallb (fun t => dt_microsecond t mod 1000 =? 0) ts
       then RESO_MS else RESO_US.

(** A timestamp of the parsed [created_at] column as text. *)
Definition format_datetime (reso : resolution) (t : datetime) : string :=
  let day := isoformat (dt_date t) in
  let clock :=
    zfill 2 (dec (dt_hour t)) ++ ":" ++ zfill 2 (dec (dt_minute t)) ++ ":"
    ++ zfill 2 (dec (dt_second t)) in
  match reso with
  | RESO_DAY => day
  | RESO_SEC => day ++ " " ++ clock
  | RESO_MS =>
      day ++ " " ++ clock ++ "." ++ zfill 3 (dec (dt_microsecond t / 1000))
  | RESO_US =>
      day ++ " " ++ clock ++ "." ++ zfill 6 (dec (dt_microsecond t))
  end.

(** A cell of the [created_at] column: [NaT] is written as the empty
    [na_rep]. *)
Definition time_cell (reso : resolution) (cell : option datetime) : string :=
  match cell with
  | None => ""
  | Some t => format_datetime reso t
  end.

(** The timestamps of a column, [NaT] left out. *)
Fixpoint present (col : list (option datetime)) : list datetime :=
  match col with
  | [] => []
  | Some t :: rest => t :: present rest
  | None :: rest => present rest
  end.

(** The cells of one row as text, in column order. *)
Definition cells (reso : resolution) (r : task) : list string :=
  [dec (id r); title r; text_cell (description r); text_cell (priority r);
   isoformat (due_date r); text_cell (tags r); text_cell (status r);
   time_cell reso (created_at r)].

(** One record: the fields quoted where needed, joined by commas and ended
    by the line terminator. *)
Definition csv_record (fields : list string) : string :=
  join (String COMMA EmptyString) (map quote_field fields)
  ++ String LF EmptyString.

(** The records of the dump: the header, then the rows. *)
Definition records (df : list task) : list (list string) :=
  columns :: map (cells (get_resolution (present (map created_at df)))) df.

(** [df.to_csv(index=False)] *)
Definition to_csv (df : list task) : string :=
  String.concat "" (map csv_record (records df)).

(** The handler of the button: [csv = fetch_tasks().to_csv(index=False)]. *)
Definition export_csv (db : store) : string := to_csv (fetch_tasks db).

(** Line feeds inside the text cells of one row. *)
Definition inner_lf (r : task) : nat :=
  (count_lf (title r) + count_lf (text_cell (description r))
   + count_lf (text_cell (priority r)) + count_lf (text_cell (tags r))
   + count_lf (text_cell (status r)))%nat.

Definition total_inner_lf (df : list task) : nat :=
  fold_right (fun r n => (inner_lf r + n)%nat) O df.

(** Line feeds in a list of fields. *)
Definition sum_lf (fields : list string) : nat :=
  fold_right (fun s n => (count_lf s + n)%nat) O fields.

End CsvExport.

(* ------------------------------------------------------------------ *)
(** ** The edit form of the "Task List" tab *)

Module EditForm.
Import Text Dates Store.

(** [df[df.id==eid].iloc[0]]: the first displayed row with this [id];
    [None] stands for the [IndexError] of [iloc[0]] on an empty selection. *)
Definition edit_lookup (eid : Z) (df : list task) : option task :=
  find (fun r => id r =? eid) df.

(** The keyword arguments the "Save Changes" button passes. *)
Definition edit_fields (e_title : string) (e_due : date)
    (e_desc e_prio e_tags e_status : string) : list assignment :=
  [set_title (Some (strip e_title)); set_description (Some (strip e_desc));
   set_priority (Some e_prio); set_due_date e_due;
   set_tags (Some (strip e_tags)); set_status (Some e_status)].

End EditForm.

(* ------------------------------------------------------------------ *)
(** ** The widgets as they stand before the user touches them *)

Module Defaults.
Import Text Dates Store TaskList.

(** The options of the two multiselects, which are their defaults too. *)
Definition STATUSES : list string := ["Pending"; "In Progress"; "Completed"].
Definition PRIORITIES : list string := ["Low"; "Medium"; "High"].

(** The sidebar untouched: every status and priority selected, no date, no
    text. *)
Definition default_filters : filters :=
  mk_filters STATUSES PRIORITIES None "".

(** [value=(row.status=="Completed")]: the state of a row's checkbox before
    it is clicked. *)
Definition default_checked (row : task) : bool :=
  cell_eqb (status row) "Completed".

End Defaults.

(* ------------------------------------------------------------------ *)
(** ** The edit section of the "Task List" tab within one run *)

Module EditSection.
Import Text Dates Store TaskList EditForm Defaults.

(** The button of the tab that returned [True] in this run.  Streamlit runs
    the script once per interaction and a button is [True] only in the run
    its click caused, so at most one is; [no_button] is any other run.  The
    submit button of the edit form counts only if the form is drawn in this
    run. *)
Inductive pressed : Type :=
| no_button
| edit_button (row_id : Z)
| save_button.

(** What stops the section: an exception of [sqlite3], the [IndexError] of
    [iloc[0]], or the [ValueError] of [list.index]. *)
Inductive page_error : Type :=
| sqlite_raised (e : sqlite_error)
| IndexError
| ValueError.

(** What the section leaves: the task whose form it drew, the notice it
    showed, [st.session_state["edit_id"]] and the database. *)
Record edit_outcome : Type := mk_edit_outcome {
  form_of : option task;
  shown : option notice;
  edit_id_after : option Z;
  db_after : store
}.

(** The "Edit" buttons of the loop over the displayed rows [df], then the
    block under [# Edit form], in a run that starts with
    [st.session_state.get("edit_id") = edit_id] and in which the form's
    widgets hold the given values.  Both stand in the [else] branch of
    [if df.empty:], so nothing of this happens when no row is displayed.
    Line 136 stores the clicked row's [id]; line 143 pops it before
    anything else is done with it. *)
Definition edit_section (ev : pressed) (edit_id : option Z)
    (df : list task) (e_title : string) (e_due : date)
    (e_desc e_prio e_tags e_status : string) (db : store)
  : edit_outcome + page_error :=
  let clicked :=
    match ev with
    | edit_button i =>
        if existsb (fun r => id r =? i) df then Some i else edit_id
    | _ => edit_id
    end in
  match df, clicked with
  | [], _ => inl (mk_edit_outcome None None edit_id db)
  | _ :: _, None => inl (mk_edit_outcome None None None db)
  | _ :: _, Some eid =>
      match edit_lookup eid df with
      | None => inr IndexError
      | Some task =>
          if isin PRIORITIES (priority task) && isin STATUSES (status task)
          then
            match ev with
            | save_button =>
                match update_task eid
                        (edit_fields e_title e_due e_desc e_prio e_tags
                           e_status) db with
                | Ok db' =>
                    inl (mk_edit_outcome (Some task)
                           (Some (st_success "Updated!")) None db')
                | Raise e => inr (sqlite_raised e)
                end
            | _ => inl (mk_edit_outcome (Some task) None None db)
            end
          else inr ValueError
      end
  end.

End EditSection.

(* ------------------------------------------------------------------ *)
(** ** Predicates the properties below are stated with *)

Module Shape.
Import Text Dates Store TaskList.

(** The identifiers are pairwise distinct, positive and not above the
    [AUTOINCREMENT] counter. *)
Definition well_kept (db : store) : Prop :=
  NoDup (ids db) /\ 0 <= seq db /\ forall i, In i (ids db) -> 1 <= i <= seq db.

(** [l1] is [l2] with some elements left out, the order kept. *)
Inductive subseq {A : Type} : list A -> list A -> Prop :=
| subseq_nil : subseq [] []
| subseq_skip (x : A) (l1 l2 : list A) : subseq l1 l2 -> subseq l1 (x :: l2)
| subseq_keep (x : A) (l1 l2 : list A) :
    subseq l1 l2 -> subseq (x :: l1) (x :: l2).

(** The test the filter block applies to one row, stage by stage. *)
Definition shown_by (re : re_module) (f : filters) (r : task) : bool :=
  isin (status_f f) (status r)
  && isin (prio_f f) (priority r)
  && match due_f f with
     | None => true
     | Some d => date_le (due_date r) d
     end
  && (negb (truthy (tag_f f)) || str_contains re (tag_f f) (tags r)).

(** No line feed in a cell ([NULL] has none). *)
Definition lf_free (cell : option string) : Prop :=
  forall t, cell = Some t -> count_lf t = O.

(** No title in the table is empty. *)
Definition titles_present (db : store) : Prop :=
  forall r, In r (rows db) -> title r <> "".

End Shape.

(* ------------------------------------------------------------------ *)
(** ** Sample data used by the concrete instances below *)

Module Samples.
Import Text Dates Store TaskList.

(** 2025-01-01, 09:30:15.123456 *)
Definition new_year : date := 739252.
Definition morning : datetime := mk_datetime new_year 9 30 15 123456.

Definition empty_db : store := mk_store [] 0.

Definition report_task : task :=
  mk_task 1 "Write report" (Some "") (Some "High") new_year (Some "work")
    (Some "Pending") (Some morning).

Definition call_task : task :=
  mk_task 2 "Call the bank" (Some "") (Some "Low") (new_year + 10) None
    (Some "In Progress") (Some morning).

(** A description of two lines, as the text area of the form accepts it. *)
Definition two_lines : string := "first" ++ String LF "second".

Definition notes_task : task :=
  mk_task 1 "Notes" (Some two_lines) (Some "Low") new_year (Some "")
    (Some "Pending") (Some morning).

Definition two_tasks : store := mk_store [report_task; call_task] 2.
Definition notes_db : store := mk_store [notes_task] 1.

Definition all_statuses : list string :=
  ["Pending"; "In Progress"; "Completed"].
Definition all_priorities : list string := ["Low"; "Medium"; "High"].

(** The default sidebar with "w.r" typed into "Tag contains". *)
Definition dotted_filter : filters :=
  mk_filters all_statuses all_priorities None "w.r".

(** A regular-expression module that knows the patterns of dots and
    literal characters and rejects every other pattern: it stands in where
    an example needs a module to run with. *)
Definition dots_only : re_module := mk_re in_fragment re_search.

(** 2025-01-01, 10:00:00: a timestamp on a whole second. *)
Definition ten_sharp : datetime := mk_datetime new_year 10 0 0 0.

End Samples.

(* ------------------------------------------------------------------ *)
(** ** Properties of the store helpers *)

Module StoreFacts.
Import Text Dates Store.

Lemma last_id_lower_bound (db : store) :
  0 <= last_id db /\ seq db <= last_id db.
Proof.
  unfold last_id. induction (ids db) as [|i l IH]; simpl; lia.
Qed.

Lemma ids_le_last_id (db : store) (i : Z) : In i (ids db) -> i <= last_id db.
Proof.
  unfold last_id. induction (ids db) as [|j l IH]; simpl.
  - intros [].
  - intros [-> | Hin]; [lia | specialize (IH Hin); lia].
Qed.

Lemma cols_nonempty (kwargs : list assignment) :
  kwargs <> [] -> truthy (cols kwargs) = true.
Proof.
  destruct kwargs as [|a l]; [congruence | intros _].
  unfold cols. simpl. destruct a, l; reflexivity.
Qed.

Lemma update_rows_missing (i : Z) (kwargs : list assignment) (rs : list task) :
  ~ In i (map id rs) -> update_rows i kwargs rs = Some rs.
Proof.
  induction rs as [|r rs IH]; simpl; intros Hnot; [reflexivity|].
  rewrite IH by tauto.
  destruct (Z.eqb_spec (id r) i) as [E|_]; [exfalso; tauto | reflexivity].
Qed.

(** With a single assignment to [status] no constraint can fail: the
    statement rewrites the matching rows and keeps the others. *)
Lemma update_rows_status (i : Z) (v : option string) (rs : list task) :
  update_rows i [set_status v] rs
  = Some (map (fun r => if id r =? i then assign r (set_status v) else r) rs).
Proof.
  induction rs as [|r rs IH]; simpl; [reflexivity|].
  rewrite IH. destruct (id r =? i); reflexivity.
Qed.

Lemma filter_all (A : Type) (p : A -> bool) (l : list A) :
  (forall x, In x l -> p x = true) -> filter p l = l.
Proof.
  induction l as [|x l IH]; simpl; intros H; [reflexivity|].
  rewrite (H x) by tauto. f_equal. apply IH. intros y Hy. apply H. tauto.
Qed.

(** The format is that of the first timestamp: appending a cell changes it
    only when there was none. *)
Lemma inferred_format_app (col : list (option datetime))
    (c : option datetime) :
  inferred_format (col ++ [c])
  = match inferred_format col with
    | Some f => Some f
    | None => inferred_format [c]
    end.
Proof.
  induction col as [|[t|] col IH]; simpl; [reflexivity | reflexivity | exact IH].
Qed.

Lemma read_rows_without_format (f : option bool) (rs : list task) :
  inferred_format (map created_at rs) = None ->
  map (read_row f) rs = map (read_row None) rs.
Proof.
  induction rs as [|r rs IH]; simpl; [reflexivity|].
  destruct (created_at r) as [t|] eqn:Hc; [discriminate|].
  intros H. rewrite (IH H). f_equal. unfold read_row. rewrite Hc.
  reflexivity.
Qed.

(** Read back, a table with one more row at the end is the table read back
    and then that row. *)
Lemma fetch_tasks_app (rs : list task) (n : task) (s s' : Z) :
  fetch_tasks (mk_store (rs ++ [n]) s')
  = (fetch_tasks (mk_store rs s)
     ++ [read_row (inferred_format (map created_at (rs ++ [n]))) n])%list.
Proof.
  unfold fetch_tasks. simpl. rewrite map_app. simpl. f_equal.
  rewrite map_app. simpl. rewrite inferred_format_app.
  destruct (inferred_format (map created_at rs)) as [f|] eqn:Hf;
    [reflexivity|].
  rewrite (read_rows_without_format _ rs Hf). reflexivity.
Qed.

(** Rewriting the status of some rows and reading the table back can be
    done in either order. *)
Lemma fetch_tasks_status (i : Z) (v : option string) (rs : list task)
    (s s' : Z) :
  fetch_tasks
    (mk_store
       (map (fun r => if id r =? i then assign r (set_status v) else r) rs)
       s')
  = map (fun r => if id r =? i then assign r (set_status v) else r)
      (fetch_tasks (mk_store rs s)).
Proof.
  unfold fetch_tasks. cbn [rows].
  assert (Hc : map created_at
                 (map (fun r => if id r =? i
                                then assign r (set_status v) else r) rs)
               = map created_at rs).
  { rewrite map_map. apply map_ext. intros r.
    destruct (id r =? i); reflexivity. }
  rewrite Hc, !map_map. apply map_ext. intros r.
  destruct (id r =? i) eqn:E; simpl; rewrite ?E; reflexivity.
Qed.

(** C2 (as amended): an [update_task] on an [id] that no row has, with at
    least one field, returns normally -- nothing checks how many rows the
    statement touched, no error is raised -- and the store is left exactly
    as it was. *)
Theorem update_missing_id_is_silent (i : Z) (kwargs : list assignment)
    (db : store) :
  ~ In i (ids db) -> kwargs <> [] -> update_task i kwargs db = Ok db.
Proof.
  intros Hmiss Hk. unfold update_task, well_formed.
  rewrite (cols_nonempty kwargs Hk).
  rewrite update_rows_missing by exact Hmiss.
  destruct db; reflexivity.
Qed.

(** C4 (as amended): while the table has not used up its identifiers,
    [add_task] appends exactly one row to the table, after the existing
    ones; the row has status Pending, [created_at] equal to the time of the
    call and the other columns equal to the arguments; its [id] is larger
    than, hence distinct from, every [id] in the table; read back, the table
    shows the rows it showed before and then the new row with these [id],
    title, description, priority, due date, tags and status; and the call
    returns [None], not the identifier. *)
Theorem add_task_appends_pending_row (title_ desc prio : string) (due : date)
    (tags_ : string) (now : datetime) (db : store) :
  last_id db < MAX_ROWID ->
  exists db' new,
    add_task title_ desc prio due tags_ now db = Ok (None, db')
    /\ rows db' = (rows db ++ [new])%list
    /\ new = mk_task (id new) title_ (Some desc) (Some prio) due (Some tags_)
               (Some "Pending") (Some now)
    /\ (forall i, In i (ids db) -> i < id new)
    /\ ~ In (id new) (ids db)
    /\ (exists read,
          fetch_tasks db' = (fetch_tasks db ++ [read])%list
          /\ id read = id new /\ title read = title_
          /\ description read = Some desc /\ priority read = Some prio
          /\ due_date read = due /\ tags read = Some tags_
          /\ status read = Some "Pending").
Proof.
  intros Hroom. unfold add_task.
  destruct (Z.ltb_spec MAX_ROWID (last_id db + 1)) as [Hfull|_]; [lia|].
  assert (Hlt : forall i, In i (ids db) -> i < last_id db + 1).
  { intros i Hi. apply ids_le_last_id in Hi. lia. }
  destruct db as [rs s].
  eexists. eexists. split; [reflexivity|]. simpl.
  split; [reflexivity|]. split; [reflexivity|].
  simpl. split; [exact Hlt|].
  split; [intros Hin; apply Hlt in Hin; lia|].
  eexists. split; [apply fetch_tasks_app|].
  simpl. repeat split; reflexivity.
Qed.

(** C6: [delete_task] never raises; when no row has the [id] the store is
    unchanged; and deleting the same [id] again succeeds and changes
    nothing (afterwards no row has that [id]). *)
Theorem delete_task_idempotent (i : Z) (db : store) :
  exists db',
    delete_task i db = Ok db'
    /\ (~ In i (ids db) -> db' = db)
    /\ ~ In i (ids db')
    /\ delete_task i db' = Ok db'.
Proof.
  eexists. split; [reflexivity|]. split; [|split].
  - intros Hmiss. destruct db as [rs s]. simpl. f_equal.
    apply filter_all. intros r Hr.
    destruct (Z.eqb_spec (id r) i) as [E|_]; [|reflexivity].
    exfalso. apply Hmiss. unfold ids. simpl. rewrite <- E.
    now apply in_map.
  - unfold ids. simpl. rewrite in_map_iff. intros [r [E Hr]].
    apply filter_In in Hr. destruct Hr as [_ Hr].
    rewrite E, Z.eqb_refl in Hr. discriminate.
  - unfold delete_task. simpl. do 2 f_equal.
    apply filter_all. intros r Hr. apply filter_In in Hr. tauto.
Qed.

(** C8: for an [id] that a row has, [update_task(id, status="Completed")]
    returns normally; [fetch_tasks] then shows, position by position, the
    same rows with the same [id], title, description, priority, due date,
    tags and [created_at]; the status is Completed in the rows with this
    [id] and as before in all others; and such a row is there.  In the
    table itself the rows with this [id] have become Completed and nothing
    else has changed. *)
Theorem update_status_completed_frame (i : Z) (db : store) :
  In i (ids db) ->
  exists db',
    update_task i [set_status (Some "Completed")] db = Ok db'
    /\ seq db' = seq db
    /\ List.length (fetch_tasks db') = List.length (fetch_tasks db)
    /\ (forall n r, nth_error (fetch_tasks db) n = Some r ->
          exists r',
            nth_error (fetch_tasks db') n = Some r'
            /\ id r' = id r /\ title r' = title r
            /\ description r' = description r /\ priority r' = priority r
            /\ due_date r' = due_date r /\ tags r' = tags r
            /\ created_at r' = created_at r
            /\ status r' = (if id r =? i then Some "Completed" else status r))
    /\ (exists r', In r' (fetch_tasks db') /\ id r' = i
                   /\ status r' = Some "Completed")
    /\ (forall n r, nth_error (rows db) n = Some r ->
          nth_error (rows db') n
          = Some (if id r =? i
                  then mk_task (id r) (title r) (description r) (priority r)
                         (due_date r) (tags r) (Some "Completed")
                         (created_at r)
                  else r)).
Proof.
  intros Hin. destruct db as [rs s].
  set (upd := fun r => if id r =? i
                       then assign r (set_status (Some "Completed")) else r).
  assert (Hup : update_task i [set_status (Some "Completed")] (mk_store rs s)
                = Ok (mk_store (map upd rs) s)).
  { unfold update_task. simpl. now rewrite update_rows_status. }
  exists (mk_store (map upd rs) s). split; [exact Hup|].
  split; [reflexivity|]. unfold upd.
  rewrite (fetch_tasks_status i (Some "Completed") rs s s).
  set (df := fetch_tasks (mk_store rs s)). cbn [rows].
  split; [apply length_map|]. split; [|split].
  - intros n r Hn. rewrite nth_error_map, Hn. simpl.
    eexists. split; [reflexivity|].
    destruct (id r =? i); simpl; repeat split; reflexivity.
  - unfold ids in Hin. simpl in Hin. apply in_map_iff in Hin.
    destruct Hin as [r [E Hr]]. subst i.
    exists (assign
              (read_row (inferred_format (map created_at rs)) r)
              (set_status (Some "Completed"))).
    split; [|split; reflexivity].
    apply in_map_iff.
    exists (read_row (inferred_format (map created_at rs)) r).
    simpl. rewrite Z.eqb_refl. split; [reflexivity|].
    unfold df, fetch_tasks. simpl. now apply in_map.
  - intros n r Hn. rewrite nth_error_map, Hn. simpl.
    destruct (id r =? i); reflexivity.
Qed.

(** C10: with no field the statement text is
    [UPDATE tasks SET  WHERE id=?], which SQLite cannot parse: the call
    raises and is no silent no-op; a call that returns normally was given at
    least one field. *)
Theorem update_without_fields_raises (i : Z) (db : store) :
  update_sql [] = "UPDATE tasks SET  WHERE id=?"
  /\ update_task i [] db = Raise OperationalError
  /\ (forall kwargs db', update_task i kwargs db = Ok db' -> kwargs <> []).
Proof.
  split; [reflexivity|]. split; [reflexivity|].
  intros kwargs db' H ->. discriminate H.
Qed.

(** C2, the claim as written fails: on the two sample tasks (ids 1 and 2)
    an update of id 999 returns normally instead of raising. *)
Lemma update_missing_id_returns :
  existsb (Z.eqb 999) (ids Samples.two_tasks) = false
  /\ update_task 999 [set_status (Some "Completed")] Samples.two_tasks
     = Ok Samples.two_tasks.
Proof. split; reflexivity. Qed.

Lemma update_missing_id_is_silent_witness :
  ~ In 7 (ids Samples.two_tasks)
  /\ [set_title (Some "Renamed"); set_priority (Some "Low")] <> []
  /\ update_task 7 [set_title (Some "Renamed"); set_priority (Some "Low")]
       Samples.two_tasks
     = Ok Samples.two_tasks.
Proof.
  assert (H1 : ~ In 7 (ids Samples.two_tasks)).
  { simpl. intros [H | [H | []]]; discriminate H. }
  assert (H2 : [set_title (Some "Renamed"); set_priority (Some "Low")] <> [])
    by discriminate.
  split; [exact H1|]. split; [exact H2|].
  exact (update_missing_id_is_silent 7 _ Samples.two_tasks H1 H2).
Defined.

(** C4, the claim as written fails: the first add on an empty table creates
    the row with id 1, and the call returns [None]. *)
Lemma add_task_returns_none :
  exists db',
    add_task "Write report" "" "High" Samples.new_year "work" Samples.morning
      Samples.empty_db = Ok (None, db')
    /\ ids db' = [1].
Proof. eexists. split; reflexivity. Qed.

Lemma add_task_appends_pending_row_witness :
  last_id Samples.two_tasks < MAX_ROWID
  /\ exists db' new,
       add_task "Pay rent" "before the 5th" "Medium" Samples.new_year "home"
         Samples.morning Samples.two_tasks = Ok (None, db')
       /\ rows db' = (rows Samples.two_tasks ++ [new])%list
       /\ new = mk_task (id new) "Pay rent" (Some "before the 5th")
                  (Some "Medium") Samples.new_year (Some "home")
                  (Some "Pending") (Some Samples.morning)
       /\ (forall i, In i (ids Samples.two_tasks) -> i < id new)
       /\ ~ In (id new) (ids Samples.two_tasks).
Proof.
  assert (H : last_id Samples.two_tasks < MAX_ROWID) by reflexivity.
  split; [exact H|].
  destruct (add_task_appends_pending_row "Pay rent" "before the 5th" "Medium"
              Samples.new_year "home" Samples.morning Samples.two_tasks H)
    as [db' [new [H1 [H2 [H3 [H4 [H5 _]]]]]]].
  exists db', new. repeat split; assumption.
Defined.

Lemma update_status_completed_frame_witness :
  In 2 (ids Samples.two_tasks)
  /\ exists db',
       update_task 2 [set_status (Some "Completed")] Samples.two_tasks
       = Ok db'
       /\ map status (fetch_tasks db')
          = [Some "Pending"; Some "Completed"].
Proof.
  assert (H : In 2 (ids Samples.two_tasks)) by (simpl; tauto).
  split; [exact H|].
  destruct (update_status_completed_frame 2 Samples.two_tasks H)
    as [db' [Hup _]].
  exists db'. split; [exact Hup|].
  simpl in Hup. injection Hup as <-. reflexivity.
Defined.

End StoreFacts.
(* ------------------------------------------------------------------ *)
(** ** Properties of the string operations *)

Module TextFacts.
Import Text.

Lemma lstrip_all_space (s : string) : all_space s = true -> lstrip s = "".
Proof.
  induction s as [|c s IH]; simpl; [reflexivity|].
  intros H. apply andb_prop in H. destruct H as [Hc Hs].
  rewrite Hc. exact (IH Hs).
Qed.

Lemma all_space_lstrip (s : string) :
  all_space (lstrip s) = true -> all_space s = true.
Proof.
  induction s as [|c s IH]; simpl; [reflexivity|].
  destruct (isspace c) eqn:Hc; simpl.
  - exact IH.
  - rewrite Hc. discriminate.
Qed.

Lemma rstrip_empty (s : string) : rstrip s = "" -> all_space s = true.
Proof.
  induction s as [|c s IH]; simpl; [reflexivity|].
  destruct (rstrip s) eqn:Hr; [|discriminate].
  destruct (isspace c); [|discriminate].
  intros _. exact (IH eq_refl).
Qed.

(** A string is empty or all whitespace exactly when [strip] leaves
    nothing of it. *)
Lemma strip_empty_iff (s : string) : strip s = "" <-> all_space s = true.
Proof.
  unfold strip. split.
  - intros H. apply all_space_lstrip. exact (rstrip_empty _ H).
  - intros H. rewrite (lstrip_all_space s H). reflexivity.
Qed.

(** On a pattern without special characters, matching at the start is
    comparing the lower-cased texts. *)
Lemma match_here_literal (pat s : string) :
  is_literal pat = true ->
  match_here pat s = starts_with (lower_str pat) (lower_str s).
Proof.
  revert s. induction pat as [|p pat IH]; intros s H.
  - destruct s; reflexivity.
  - simpl in H. apply andb_prop in H. destruct H as [H Hlit].
    apply andb_prop in H. destruct H as [_ Hdot].
    destruct s as [|c s]; simpl; [reflexivity|].
    apply negb_true_iff in Hdot. rewrite Hdot, (IH s Hlit). reflexivity.
Qed.

(** ... and searching is case-insensitive containment. *)
Lemma re_search_literal (pat s : string) :
  is_literal pat = true -> re_search pat s = contains_nocase pat s.
Proof.
  intros H. unfold contains_nocase.
  induction s as [|c s IH]; simpl.
  - now rewrite (match_here_literal pat "" H).
  - rewrite (match_here_literal pat (String c s) H), IH. reflexivity.
Qed.

Lemma is_literal_in_fragment (pat : string) :
  is_literal pat = true -> in_fragment pat = true.
Proof.
  induction pat as [|p pat IH]; simpl; [reflexivity|].
  intros H. apply andb_prop in H. destruct H as [H Hlit].
  apply andb_prop in H. destruct H as [Hm _].
  rewrite Hm, (IH Hlit). reflexivity.
Qed.

Lemma count_lf_app (a b : string) :
  count_lf (a ++ b) = (count_lf a + count_lf b)%nat.
Proof.
  induction a as [|c a IH]; simpl; [reflexivity|]. rewrite IH. lia.
Qed.

End TextFacts.
(* ------------------------------------------------------------------ *)
(** ** Properties of the "Add Task" form *)

Module AddFormFacts.
Import Text Dates Store AddForm.

(** C3: when the title typed into the form is empty or only whitespace,
    submitting shows the validation error "Title is required", [add_task]
    is not called and the store after the failed add is the store before
    it. *)
Theorem blank_title_is_rejected (title_ : string) (due : date)
    (desc priority_ tags_in : string) (now : datetime) (db : store) :
  all_space title_ = true ->
  add_form_submit title_ due desc priority_ tags_in now db
  = Ok (st_error "Title is required", db).
Proof.
  intros H. unfold add_form_submit.
  apply TextFacts.strip_empty_iff in H. rewrite H. reflexivity.
Qed.

Lemma blank_title_is_rejected_witness :
  all_space "   " = true
  /\ add_form_submit "   " Samples.new_year "details" "High" "work"
       Samples.morning Samples.two_tasks
     = Ok (st_error "Title is required", Samples.two_tasks).
Proof.
  assert (H : all_space "   " = true) by reflexivity.
  split; [exact H|].
  exact (blank_title_is_rejected "   " Samples.new_year "details" "High"
           "work" Samples.morning Samples.two_tasks H).
Defined.

(** The check is the form's: [add_task] itself stores whatever title it is
    given, and the form is its only caller. *)
Remark add_task_does_not_validate :
  exists db',
    add_task " " "" "Low" Samples.new_year "" Samples.morning
      Samples.empty_db = Ok (None, db')
    /\ map title (fetch_tasks db') = [" "].
Proof. eexists. split; reflexivity. Qed.

(** A title with a visible character goes through: the stripped fields are
    stored. *)
Lemma visible_title_is_added (title_ : string) (due : date)
    (desc priority_ tags_in : string) (now : datetime) (db : store) :
  all_space title_ = false ->
  last_id db < MAX_ROWID ->
  exists db',
    add_form_submit title_ due desc priority_ tags_in now db
    = Ok (st_success "Task added!", db')
    /\ add_task (strip title_) (strip desc) priority_ due (strip tags_in)
         now db = Ok (None, db').
Proof.
  intros Hvis Hroom. unfold add_form_submit.
  destruct (strip title_) eqn:Hs.
  - apply TextFacts.strip_empty_iff in Hs. congruence.
  - simpl. unfold add_task.
    destruct (Z.ltb_spec MAX_ROWID (last_id db + 1)) as [Hfull|_]; [lia|].
    eexists. split; reflexivity.
Qed.

End AddFormFacts.
(* ------------------------------------------------------------------ *)
(** ** Properties of the task list *)

Module TaskListFacts.
Import Text Dates Store TaskList.

Lemma filter_filter (A : Type) (p q : A -> bool) (l : list A) :
  filter p (filter q l) = filter (fun x => q x && p x) l.
Proof.
  induction l as [|x l IH]; simpl; [reflexivity|].
  destruct (q x); simpl; [destruct (p x)|]; rewrite IH; reflexivity.
Qed.

(** When the text typed into "Tag contains" has no special character, the
    block returns exactly the rows that satisfy all four conditions, in
    table order. *)
Lemma apply_filters_literal (re : re_module) (f : filters) (df : list task) :
  dots_and_literals re ->
  is_literal (tag_f f) = true ->
  apply_filters re f df = Some (filter (satisfies f) df).
Proof.
  intros Hre Hlit. unfold apply_filters.
  destruct (Hre _ (TextFacts.is_literal_in_fragment _ Hlit)) as [Hc Hs].
  rewrite Hc.
  assert (Htag : forall r,
             str_contains re (tag_f f) (tags r)
             = match tags r with
               | None => false
               | Some t => contains_nocase (tag_f f) t
               end).
  { intros r. unfold str_contains. destruct (tags r); [|reflexivity].
    rewrite Hs. apply TextFacts.re_search_literal. exact Hlit. }
  destruct (due_f f) as [d|] eqn:Hd; destruct (truthy (tag_f f)) eqn:Ht;
    f_equal; rewrite !filter_filter; apply filter_ext; intros r;
    unfold satisfies; rewrite Hd, Ht, ?Htag; simpl;
    rewrite ?andb_true_r, ?andb_assoc; reflexivity.
Qed.

(** An empty selection of statuses, or of priorities, selects nothing. *)
Lemma empty_selection_matches_nothing (re : re_module) (f : filters)
    (df : list task) :
  status_f f = [] \/ prio_f f = [] ->
  truthy (tag_f f) = false \/ compiles re (tag_f f) = true ->
  apply_filters re f df = Some [].
Proof.
  intros Hsel Hok. unfold apply_filters.
  assert (Hnone : forall c, isin [] c = false) by (intros [c|]; reflexivity).
  assert (Hnil :
            filter (fun r => isin (prio_f f) (priority r))
              (filter (fun r => isin (status_f f) (status r)) df) = []).
  { rewrite filter_filter. destruct Hsel as [-> | ->];
      induction df as [|r df IH]; simpl; rewrite ?Hnone, ?andb_false_r;
      auto. }
  rewrite Hnil.
  destruct Hok as [-> | ->]; destruct (due_f f);
    try destruct (truthy (tag_f f)); reflexivity.
Qed.

(** C1, the code departs from the claim: with "w.r" typed into "Tag
    contains" the block shows the task tagged "work", which does not
    contain the text "w.r"; the dot is taken as a pattern character.  This
    holds with any regular-expression module that reads dots and literal
    characters as Python's does. *)
Theorem tag_filter_reads_a_pattern (re : re_module) :
  dots_and_literals re ->
  apply_filters re Samples.dotted_filter [Samples.report_task]
  = Some [Samples.report_task]
  /\ satisfies Samples.dotted_filter Samples.report_task = false
  /\ contains_nocase "w.r" "work" = false.
Proof.
  intros Hre. destruct (Hre "w.r" eq_refl) as [Hc Hs].
  split; [|split; reflexivity].
  unfold apply_filters. cbn. rewrite Hc. unfold str_contains. cbn.
  rewrite Hs. reflexivity.
Qed.

Lemma tag_filter_reads_a_pattern_witness :
  dots_and_literals Samples.dots_only
  /\ apply_filters Samples.dots_only Samples.dotted_filter
       [Samples.report_task]
     = Some [Samples.report_task]
  /\ satisfies Samples.dotted_filter Samples.report_task = false.
Proof.
  assert (H : dots_and_literals Samples.dots_only)
    by (intros pat Hp; split; [exact Hp | reflexivity]).
  split; [exact H|].
  destruct (tag_filter_reads_a_pattern Samples.dots_only H) as [H1 [H2 _]].
  split; [exact H1 | exact H2].
Defined.

Lemma cell_eqb_true (cell : option string) (s : string) :
  cell_eqb cell s = true -> cell = Some s.
Proof.
  destruct cell as [c|]; simpl; [|discriminate].
  intros H. apply String.eqb_eq in H. now subst.
Qed.

(** C5: the checkbox stands for Completed when ticked; when not ticked it
    stands for In Progress if the row is In Progress and for Pending
    otherwise, so a Pending task that was ticked and is unticked again is
    Pending.  The handler returns, and afterwards the table holds the same
    rows with every column but the status as before; the status is the one
    the checkbox stands for in the rows with the row's [id] when it differs
    from the displayed row's status, in which case "Status updated!" is
    shown, and untouched otherwise; so the table row the displayed row was
    read from has the status the checkbox stands for. *)
Theorem done_toggle_mapping (row : task) (s : option string) (db : store) :
  new_status true s = "Completed"
  /\ new_status false (Some "In Progress") = "In Progress"
  /\ (s <> Some "In Progress" -> new_status false s = "Pending")
  /\ new_status false (Some (new_status true (Some "Pending"))) = "Pending"
  /\ (forall checked,
        let ns := new_status checked (status row) in
        exists n db',
          status_checkbox row checked db = Ok (n, db')
          /\ seq db' = seq db
          /\ n = (if cell_eqb (status row) ns then None
                  else Some (st_success "Status updated!"))
          /\ (forall k r, nth_error (rows db) k = Some r ->
                exists r',
                  nth_error (rows db') k = Some r'
                  /\ id r' = id r /\ title r' = title r
                  /\ description r' = description r
                  /\ priority r' = priority r /\ due_date r' = due_date r
                  /\ tags r' = tags r /\ created_at r' = created_at r
                  /\ status r'
                     = (if (id r =? id row)
                           && negb (cell_eqb (status row) ns)
                        then Some ns else status r)
                  /\ (id r = id row -> status r = status row ->
                      status r' = Some ns))).
Proof.
  split; [reflexivity|]. split; [reflexivity|]. split; [|split].
  - intros Hs. unfold new_status. destruct s as [t|]; simpl; [|reflexivity].
    destruct (String.eqb_spec t "In Progress") as [->|_];
      [congruence | reflexivity].
  - reflexivity.
  - intros checked ns. unfold status_checkbox. fold ns.
    destruct (cell_eqb (status row) ns) eqn:Hsame; simpl.
    + exists None, db. split; [reflexivity|]. split; [reflexivity|].
      split; [reflexivity|]. intros k r Hk. exists r.
      split; [exact Hk|]. rewrite andb_false_r.
      repeat (split; [reflexivity|]).
      intros _ Hst. rewrite Hst. now apply cell_eqb_true.
    + unfold update_task. simpl. rewrite StoreFacts.update_rows_status.
      eexists. eexists. split; [reflexivity|]. simpl.
      split; [reflexivity|]. split; [reflexivity|].
      intros k r Hk. rewrite nth_error_map, Hk. simpl.
      eexists. split; [reflexivity|]. rewrite andb_true_r.
      destruct (Z.eqb_spec (id r) (id row)) as [E|Hne]; simpl;
        repeat (split; [reflexivity|]); [reflexivity | contradiction].
Qed.

End TaskListFacts.
(* ------------------------------------------------------------------ *)
(** ** Properties of the upcoming-deadlines report *)

Module AnalyticsFacts.
Import Text Dates Store Analytics.

Lemma insert_by_due_perm (x : deadline) (l : list deadline) :
  Permutation (insert_by_due x l) (x :: l).
Proof.
  induction l as [|y l IH]; simpl; [apply Permutation_refl|].
  destruct (date_le (d_due_date x) (d_due_date y)).
  - apply Permutation_refl.
  - eapply perm_trans; [apply perm_skip, IH | apply perm_swap].
Qed.

Lemma sort_values_due_perm (l : list deadline) :
  Permutation (sort_values_due l) l.
Proof.
  induction l as [|x l IH]; simpl; [constructor|].
  eapply perm_trans; [apply insert_by_due_perm | apply perm_skip, IH].
Qed.

Lemma insert_by_due_sorted (x : deadline) (l : list deadline) :
  StronglySorted due_le l -> StronglySorted due_le (insert_by_due x l).
Proof.
  induction 1 as [|y l Hl IH Hy]; simpl.
  - repeat constructor.
  - unfold date_le.
    destruct (Z.leb_spec (d_due_date x) (d_due_date y)) as [Hxy|Hyx].
    + constructor; [constructor; assumption|].
      constructor; [exact Hxy|].
      eapply Forall_impl; [|exact Hy].
      intros z Hz. unfold due_le in *. lia.
    + constructor; [exact IH|].
      eapply Permutation_Forall;
        [apply Permutation_sym, insert_by_due_perm|].
      constructor; [unfold due_le; lia | exact Hy].
Qed.

Lemma sort_values_due_sorted (l : list deadline) :
  StronglySorted due_le (sort_values_due l).
Proof.
  induction l as [|x l IH]; simpl; [constructor|].
  apply insert_by_due_sorted, IH.
Qed.

Lemma upcoming_lines (today : date) (df : list task) :
  map select (upcoming today (fillna df))
  = map line_of (filter (fun r => due_date r <=? today + 7) df).
Proof.
  unfold upcoming, fillna, date_le, add_days.
  induction df as [|r df IH]; simpl; [reflexivity|].
  destruct (due_date r <=? today + 7); simpl; rewrite IH; reflexivity.
Qed.

(** Reading the table into the DataFrame changes no line of the report:
    the lines do not show [created_at]. *)
Lemma read_back_lines (format : option bool) (today : date)
    (rs : list task) :
  map line_of
    (filter (fun r => due_date r <=? today + 7) (map (read_row format) rs))
  = map line_of (filter (fun r => due_date r <=? today + 7) rs).
Proof.
  induction rs as [|r rs IH]; simpl; [reflexivity|].
  destruct (due_date r <=? today + 7); simpl; rewrite IH; reflexivity.
Qed.

Lemma upcoming_lines_fetched (today : date) (db : store) :
  map select (upcoming today (fillna (fetch_tasks db)))
  = map line_of (filter (fun r => due_date r <=? today + 7) (rows db)).
Proof.
  rewrite upcoming_lines. unfold fetch_tasks. apply read_back_lines.
Qed.

Lemma reported_perm (today : date) (db : store) :
  Permutation (reported (upcoming_deadlines today db))
    (map line_of (filter (fun r => due_date r <=? today + 7) (rows db))).
Proof.
  unfold upcoming_deadlines.
  rewrite <- upcoming_lines_fetched.
  destruct (upcoming today (fillna (fetch_tasks db))) as [|r l];
    cbn [reported].
  - constructor.
  - apply sort_values_due_perm.
Qed.

(** C7: on any day and for any table, the report holds exactly the tasks
    with [due_date <= today + 7] -- one line per such task, so overdue
    tasks too and none due later -- in ascending order of due date; with A
    due today and B due in ten days it holds A alone. *)
Theorem upcoming_deadlines_report (today : date) (db : store) :
  let report := reported (upcoming_deadlines today db) in
  Permutation report
    (map line_of (filter (fun r => due_date r <=? today + 7) (rows db)))
  /\ StronglySorted due_le report
  /\ (forall r, In r (rows db) -> due_date r <= today + 7 ->
        In (line_of r) report)
  /\ (forall d, In d report ->
        exists r, In r (rows db) /\ due_date r <= today + 7 /\ d = line_of r)
  /\ (forall a b s, due_date a = today -> due_date b = today + 10 ->
        reported (upcoming_deadlines today (mk_store [a; b] s))
        = [line_of a]).
Proof.
  intros report. pose proof (reported_perm today db) as Hperm.
  fold report in Hperm. split; [exact Hperm|]. split; [|split; [|split]].
  - unfold report, upcoming_deadlines.
    destruct (upcoming today (fillna (fetch_tasks db))); cbn [reported].
    + constructor.
    + apply sort_values_due_sorted.
  - intros r Hr Hdue.
    eapply Permutation_in; [apply Permutation_sym, Hperm|].
    apply in_map, filter_In. split; [exact Hr|]. now apply Z.leb_le.
  - intros d Hd. eapply Permutation_in in Hd; [|exact Hperm].
    apply in_map_iff in Hd. destruct Hd as [r [<- Hr]].
    apply filter_In in Hr. destruct Hr as [Hr Hdue].
    exists r. split; [exact Hr|]. split; [now apply Z.leb_le | reflexivity].
  - intros a b s Ha Hb.
    pose proof (reported_perm today (mk_store [a; b] s)) as Hp.
    cbn [rows filter] in Hp. rewrite Ha, Hb in Hp.
    replace (today <=? today + 7) with true in Hp
      by (symmetry; apply Z.leb_le; lia).
    replace (today + 10 <=? today + 7) with false in Hp
      by (symmetry; apply Z.leb_gt; lia).
    cbn [map] in Hp. apply Permutation_sym in Hp.
    now apply Permutation_length_1_inv in Hp.
Qed.

End AnalyticsFacts.
(* ------------------------------------------------------------------ *)
(** ** Properties of the CSV export *)

Module CsvExportFacts.
Import Text Dates Store CsvExport.

Lemma count_lf_digits (d : Decimal.uint) :
  count_lf (NilEmpty.string_of_uint d) = O.
Proof. induction d; simpl; [reflexivity | exact IHd ..]. Qed.

Lemma count_lf_uint (d : Decimal.uint) :
  count_lf (NilZero.string_of_uint d) = O.
Proof.
  destruct d; [reflexivity | apply (count_lf_digits (_ d)) ..].
Qed.

Lemma count_lf_dec (n : Z) : count_lf (dec n) = O.
Proof.
  unfold dec, NilZero.string_of_int.
  destruct (Z.to_int n); simpl; apply count_lf_uint.
Qed.

Lemma count_lf_zfill (w : nat) (s : string) :
  count_lf (zfill w s) = count_lf s.
Proof.
  unfold zfill. rewrite TextFacts.count_lf_app.
  induction (w - String.length s)%nat; simpl; auto.
Qed.

Lemma count_lf_isoformat (d : date) : count_lf (isoformat d) = O.
Proof.
  unfold isoformat. destruct (ord2ymd d) as [[y m] dd].
  rewrite !TextFacts.count_lf_app, !count_lf_zfill, !count_lf_dec.
  reflexivity.
Qed.

Lemma count_lf_format_datetime (reso : resolution) (t : datetime) :
  count_lf (format_datetime reso t) = O.
Proof.
  destruct reso; unfold format_datetime;
    rewrite ?TextFacts.count_lf_app, ?count_lf_zfill, ?count_lf_dec,
      ?count_lf_isoformat; reflexivity.
Qed.

Lemma count_lf_time_cell (reso : resolution) (cell : option datetime) :
  count_lf (time_cell reso cell) = O.
Proof.
  destruct cell; [apply count_lf_format_datetime | reflexivity].
Qed.

Lemma count_lf_double_quotes (s : string) :
  count_lf (double_quotes s) = count_lf s.
Proof.
  induction s as [|c s IH]; simpl; [reflexivity|].
  destruct (Ascii.eqb_spec c QUOTE) as [->|_]; simpl; rewrite IH; reflexivity.
Qed.

(** Quoting keeps the line feeds of a field: it only wraps the field and
    doubles its quote characters. *)
Lemma count_lf_quote_field (s : string) :
  count_lf (quote_field s) = count_lf s.
Proof.
  unfold quote_field. destruct (needs_quote s); [|reflexivity].
  simpl. rewrite TextFacts.count_lf_app, count_lf_double_quotes. simpl. lia.
Qed.

Lemma count_lf_join_comma (fields : list string) :
  count_lf (join (String COMMA EmptyString) fields) = sum_lf fields.
Proof.
  induction fields as [|a l IH]; [reflexivity|].
  destruct l as [|b l].
  - simpl. lia.
  - change (join (String COMMA EmptyString) (a :: b :: l))
      with (a ++ String COMMA EmptyString
              ++ join (String COMMA EmptyString) (b :: l))%string.
    rewrite !TextFacts.count_lf_app, IH. simpl. lia.
Qed.

Lemma sum_lf_quoted (fields : list string) :
  sum_lf (map quote_field fields) = sum_lf fields.
Proof.
  induction fields as [|a l IH]; simpl; [reflexivity|].
  rewrite count_lf_quote_field, IH. reflexivity.
Qed.

Lemma count_lf_csv_record (fields : list string) :
  count_lf (csv_record fields) = S (sum_lf fields).
Proof.
  unfold csv_record.
  rewrite TextFacts.count_lf_app, count_lf_join_comma, sum_lf_quoted.
  simpl. lia.
Qed.

Lemma sum_lf_cells (reso : resolution) (r : task) :
  sum_lf (cells reso r) = inner_lf r.
Proof.
  unfold cells, inner_lf. simpl.
  rewrite count_lf_dec, count_lf_isoformat, count_lf_time_cell. lia.
Qed.

Lemma count_lf_concat (l : list string) :
  count_lf (String.concat "" l)
  = fold_right (fun s n => (count_lf s + n)%nat) O l.
Proof.
  induction l as [|a l IH]; [reflexivity|].
  destruct l as [|b l].
  - simpl. lia.
  - change (String.concat "" (a :: b :: l))
      with (a ++ "" ++ String.concat "" (b :: l))%string.
    rewrite !TextFacts.count_lf_app, IH. simpl. lia.
Qed.

Lemma count_lf_rows (reso : resolution) (df : list task) :
  fold_right (fun s n => (count_lf s + n)%nat) O
    (map csv_record (map (cells reso) df))
  = (List.length df + total_inner_lf df)%nat.
Proof.
  induction df as [|r df IH]; simpl; [reflexivity|].
  rewrite IH, count_lf_csv_record, sum_lf_cells. lia.
Qed.

Lemma concat_cons (a : string) (l : list string) :
  String.concat "" (a :: l) = (a ++ String.concat "" l)%string.
Proof.
  destruct l as [|b l]; simpl; [|reflexivity].
  induction a as [|c a IH]; simpl; [reflexivity | now rewrite <- IH].
Qed.

(** C9 (as amended): the export of N tasks is N+1 records, the header with
    the eight column names in schema order and then one record per task in
    table order; the text has N+1 lines plus one more for every line feed
    inside a text cell, hence exactly N+1 lines when no text cell holds a
    line feed. *)
Theorem export_csv_records (db : store) :
  let n := List.length (fetch_tasks db) in
  List.length (records (fetch_tasks db)) = S n
  /\ hd_error (records (fetch_tasks db))
     = Some ["id"; "title"; "description"; "priority"; "due_date"; "tags";
             "status"; "created_at"]
  /\ (exists body,
        export_csv db
        = ("id,title,description,priority,due_date,tags,status,created_at"
           ++ String LF body)%string
        /\ count_lf body = (n + total_inner_lf (fetch_tasks db))%nat)
  /\ count_lf (export_csv db) = (S n + total_inner_lf (fetch_tasks db))%nat
  /\ (total_inner_lf (fetch_tasks db) = O -> count_lf (export_csv db) = S n).
Proof.
  intros n. unfold export_csv, to_csv, records.
  set (df := fetch_tasks db) in *.
  set (reso := get_resolution (present (map created_at df))).
  assert (Hbody :
            count_lf (String.concat "" (map csv_record (map (cells reso) df)))
            = (n + total_inner_lf df)%nat).
  { rewrite count_lf_concat. apply count_lf_rows. }
  split; [simpl; now rewrite length_map|]. split; [reflexivity|].
  cbn [map]. rewrite concat_cons.
  split; [|split].
  - eexists. split; [reflexivity | exact Hbody].
  - rewrite TextFacts.count_lf_app, Hbody. reflexivity.
  - intros H0. rewrite TextFacts.count_lf_app, Hbody, H0. simpl. lia.
Qed.

(** C9, the claim as written fails: one task whose description has two
    lines is exported as three lines, not two. *)
Lemma export_csv_multiline_description :
  List.length (fetch_tasks Samples.notes_db) = 1%nat
  /\ count_lf (export_csv Samples.notes_db) = 3%nat.
Proof. split; reflexivity. Qed.

End CsvExportFacts.
(* ------------------------------------------------------------------ *)
(** ** Further properties of the store helpers *)

Module StoreMore.
Import Text Dates Store Shape.

Lemma assign_id (r : task) (a : assignment) : id (assign r a) = id r.
Proof. destruct a as [[v|]|v|v|v|v|v|v]; reflexivity. Qed.

Lemma assigns_id (kwargs : list assignment) (r : task) :
  id (fold_left assign kwargs r) = id r.
Proof.
  revert r. induction kwargs as [|a l IH]; intros r; simpl; [reflexivity|].
  rewrite IH. apply assign_id.
Qed.

(** What a successful [UPDATE] leaves: the matching rows rewritten, the
    others as they were. *)
Lemma update_rows_map (i : Z) (kwargs : list assignment) (rs rs' : list task) :
  update_rows i kwargs rs = Some rs' ->
  rs' = map (fun r => if id r =? i then fold_left assign kwargs r else r) rs.
Proof.
  revert rs'. induction rs as [|r rs IH]; simpl; intros rs' H.
  - now injection H as <-.
  - destruct (update_rows i kwargs rs) as [rs''|]; [|discriminate].
    rewrite <- (IH rs'' eq_refl).
    destruct (id r =? i); [destruct (title_null kwargs); [discriminate|]|];
      now injection H as <-.
Qed.

Lemma update_rows_sound (i : Z) (kwargs : list assignment) (rs : list task) :
  title_null kwargs = false ->
  update_rows i kwargs rs
  = Some (map (fun r => if id r =? i then fold_left assign kwargs r else r)
            rs).
Proof.
  intros Hnn. induction rs as [|r rs IH]; simpl; [reflexivity|].
  rewrite IH, Hnn. destruct (id r =? i); reflexivity.
Qed.

Lemma update_rows_hit (i : Z) (kwargs : list assignment) (rs : list task) :
  title_null kwargs = true -> In i (map id rs) ->
  update_rows i kwargs rs = None.
Proof.
  intros Hn. induction rs as [|r rs IH]; simpl; [intros []|].
  intros [E | Hin].
  - destruct (update_rows i kwargs rs); [|reflexivity].
    rewrite E, Z.eqb_refl, Hn. reflexivity.
  - rewrite (IH Hin). reflexivity.
Qed.

Lemma update_keeps_ids (i : Z) (kwargs : list assignment) (rs : list task) :
  map id (map (fun r => if id r =? i then fold_left assign kwargs r else r) rs)
  = map id rs.
Proof.
  rewrite map_map. apply map_ext. intros r.
  destruct (id r =? i); [apply assigns_id | reflexivity].
Qed.

Lemma update_task_rows (i : Z) (kwargs : list assignment) (db db' : store) :
  update_task i kwargs db = Ok db' ->
  seq db' = seq db
  /\ rows db'
     = map (fun r => if id r =? i then fold_left assign kwargs r else r)
         (rows db).
Proof.
  unfold update_task. destruct (well_formed (cols kwargs)); [|discriminate].
  destruct (update_rows i kwargs (rows db)) as [rs|] eqn:Hu; [|discriminate].
  intros H. injection H as <-. simpl. split; [reflexivity|].
  exact (update_rows_map _ _ _ _ Hu).
Qed.

Lemma NoDup_ids_filter (p : task -> bool) (rs : list task) :
  NoDup (map id rs) -> NoDup (map id (filter p rs)).
Proof.
  induction rs as [|r rs IH]; simpl; intros H; [constructor|].
  inversion H as [|x l Hnot Hnd]; subst.
  destruct (p r); simpl; [|exact (IH Hnd)].
  constructor; [|exact (IH Hnd)].
  intros Hin. apply Hnot. apply in_map_iff in Hin.
  destruct Hin as [r' [E Hr']]. apply filter_In in Hr'.
  apply in_map_iff. exists r'. tauto.
Qed.

Lemma last_id_of_well_kept (db : store) : well_kept db -> last_id db = seq db.
Proof.
  intros [_ [Hseq Hids]]. unfold last_id.
  induction (ids db) as [|i l IH]; simpl; [lia|].
  rewrite IH by (intros j Hj; apply Hids; now right).
  specialize (Hids i (or_introl eq_refl)). lia.
Qed.

Lemma add_task_rows (title_ desc prio : string) (due : date) (tags_ : string)
    (now : datetime) (db db' : store) (ret : option Z) :
  add_task title_ desc prio due tags_ now db = Ok (ret, db') ->
  ret = None
  /\ seq db' = last_id db + 1
  /\ rows db'
     = (rows db
        ++ [mk_task (last_id db + 1) title_ (Some desc) (Some prio) due
              (Some tags_) (Some "Pending") (Some now)])%list.
Proof.
  unfold add_task. destruct (MAX_ROWID <? last_id db + 1); [discriminate|].
  intros H. injection H as <- <-. auto.
Qed.

(** X1: the three helpers keep the identifiers of the table pairwise
    distinct, positive and not above the [AUTOINCREMENT] counter: whenever
    [add_task], [update_task] or [delete_task] returns, the table it leaves
    has the property if the table it found had it. *)
Theorem helpers_keep_ids_distinct (db : store) :
  well_kept db ->
  (forall title_ desc prio due tags_ now ret db',
      add_task title_ desc prio due tags_ now db = Ok (ret, db') ->
      well_kept db')
  /\ (forall i kwargs db', update_task i kwargs db = Ok db' -> well_kept db')
  /\ (forall i db', delete_task i db = Ok db' -> well_kept db').
Proof.
  intros Hwk. pose proof Hwk as [Hnd [Hseq Hids]]. split; [|split].
  - intros title_ desc prio due tags_ now ret db' H.
    apply add_task_rows in H. destruct H as [_ [Hs Hr]].
    rewrite (last_id_of_well_kept db Hwk) in Hs, Hr.
    unfold well_kept, ids. rewrite Hs, Hr, map_app. simpl.
    split; [|split; [lia|]].
    + apply NoDup_app; [exact Hnd | repeat constructor; intros [] |].
      intros j Hj [<- | []]. apply Hids in Hj. lia.
    + intros j Hj. apply in_app_or in Hj. destruct Hj as [Hj | [<- | []]].
      * apply Hids in Hj. lia.
      * lia.
  - intros i kwargs db' H. apply update_task_rows in H.
    destruct H as [Hs Hr]. unfold well_kept, ids.
    rewrite Hs, Hr, update_keeps_ids. exact Hwk.
  - intros i db' H. injection H as <-. unfold well_kept, ids. simpl.
    split; [apply NoDup_ids_filter; exact Hnd|]. split; [exact Hseq|].
    intros j Hj. apply Hids. apply in_map_iff in Hj.
    destruct Hj as [r [E Hr]]. apply filter_In in Hr.
    apply in_map_iff. exists r. tauto.
Qed.

(** Discharges [well_kept] and membership goals on a concrete table. *)
Ltac concrete_table :=
  repeat split;
  cbv [ids map rows seq id Samples.two_tasks Samples.report_task
         Samples.call_task];
  repeat match goal with
         | |- NoDup [] => constructor
         | |- NoDup (_ :: _) => constructor
         | |- ~ _ => intros ?
         | |- forall _, _ => intros ?
         | H : In _ _ |- _ => progress simpl in H
         | H : _ \/ _ |- _ => destruct H
         | H : False |- _ => destruct H
         | H : _ = _ |- _ => first [discriminate H | subst]
         end;
  try lia.

Lemma helpers_keep_ids_distinct_witness :
  well_kept Samples.two_tasks
  /\ forall i db', delete_task i Samples.two_tasks = Ok db' -> well_kept db'.
Proof.
  assert (H : well_kept Samples.two_tasks) by concrete_table.
  split; [exact H|].
  exact (proj2 (proj2 (helpers_keep_ids_distinct Samples.two_tasks H))).
Defined.

(** X2: an identifier is never given twice.  On a table with distinct
    identifiers below the counter, deleting any task and then adding one
    gives the new task the identifier after the counter, which is larger
    than every identifier the table held -- the deleted one included. *)
Theorem deleted_id_is_not_reused (i : Z) (title_ desc prio : string)
    (due : date) (tags_ : string) (now : datetime) (db : store) :
  well_kept db -> seq db < MAX_ROWID ->
  exists db1 db2 new,
    delete_task i db = Ok db1
    /\ add_task title_ desc prio due tags_ now db1 = Ok (None, db2)
    /\ fetch_tasks db2 = (fetch_tasks db1 ++ [new])%list
    /\ id new = seq db + 1
    /\ (forall j, In j (ids db) -> j < id new).
Proof.
  intros Hwk Hroom.
  destruct (helpers_keep_ids_distinct db Hwk) as [_ [_ Hdel]].
  specialize (Hdel i _ eq_refl).
  set (db1 := mk_store (filter (fun r => negb (id r =? i)) (rows db)) (seq db))
    in *.
  pose proof (last_id_of_well_kept db1 Hdel) as Hlast. simpl in Hlast.
  exists db1. unfold add_task. rewrite Hlast.
  destruct (Z.ltb_spec MAX_ROWID (seq db + 1)) as [Hfull|_];
    [exfalso; lia|].
  eexists. eexists. split; [reflexivity|]. split; [reflexivity|].
  split; [apply (StoreFacts.fetch_tasks_app (rows db1) _ (seq db1))|].
  simpl. split; [reflexivity|].
  intros j Hj. destruct Hwk as [_ [_ Hids]]. apply Hids in Hj. lia.
Qed.

Lemma deleted_id_is_not_reused_witness :
  well_kept Samples.two_tasks /\ seq Samples.two_tasks < MAX_ROWID
  /\ exists db1 db2 new,
       delete_task 2 Samples.two_tasks = Ok db1
       /\ add_task "Pay rent" "" "Low" Samples.new_year "" Samples.morning db1
          = Ok (None, db2)
       /\ fetch_tasks db2 = (fetch_tasks db1 ++ [new])%list
       /\ id new = seq Samples.two_tasks + 1
       /\ (forall j, In j (ids Samples.two_tasks) -> j < id new).
Proof.
  assert (H1 : well_kept Samples.two_tasks) by concrete_table.
  assert (H2 : seq Samples.two_tasks < MAX_ROWID) by reflexivity.
  split; [exact H1|]. split; [exact H2|].
  exact (deleted_id_is_not_reused 2 "Pay rent" "" "Low" Samples.new_year ""
           Samples.morning Samples.two_tasks H1 H2).
Defined.

(** X3: adding a task and then deleting the identifier it was given brings
    back the rows that were there, in their order; only the counter has
    moved on. *)
Theorem add_then_delete_restores_rows (title_ desc prio : string) (due : date)
    (tags_ : string) (now : datetime) (db : store) :
  last_id db < MAX_ROWID ->
  exists db1 new db2,
    add_task title_ desc prio due tags_ now db = Ok (None, db1)
    /\ fetch_tasks db1 = (fetch_tasks db ++ [new])%list
    /\ delete_task (id new) db1 = Ok db2
    /\ fetch_tasks db2 = fetch_tasks db
    /\ seq db2 = id new.
Proof.
  intros Hroom. unfold add_task.
  destruct (Z.ltb_spec MAX_ROWID (last_id db + 1)) as [Hfull|_]; [lia|].
  destruct db as [rs s].
  eexists. eexists. eexists. split; [reflexivity|].
  split; [apply (StoreFacts.fetch_tasks_app rs _ s)|].
  split; [reflexivity|]. simpl. split; [|reflexivity].
  assert (Hrows : filter
                    (fun r => negb (id r =? last_id (mk_store rs s) + 1))
                    (rs ++ [mk_task (last_id (mk_store rs s) + 1) title_
                              (Some desc) (Some prio) due (Some tags_)
                              (Some "Pending") (Some now)])
                  = rs).
  { rewrite filter_app. simpl. rewrite Z.eqb_refl. simpl.
    rewrite app_nil_r. apply StoreFacts.filter_all. intros r Hr.
    assert (Hle : id r <= last_id (mk_store rs s)).
    { apply StoreFacts.ids_le_last_id. unfold ids. now apply in_map. }
    destruct (Z.eqb_spec (id r) (last_id (mk_store rs s) + 1));
      [lia | reflexivity]. }
  unfold fetch_tasks. cbn [rows]. rewrite Hrows. reflexivity.
Qed.

Lemma add_then_delete_restores_rows_witness :
  last_id Samples.two_tasks < MAX_ROWID
  /\ exists db1 new db2,
       add_task "Pay rent" "" "Low" Samples.new_year "" Samples.morning
         Samples.two_tasks = Ok (None, db1)
       /\ fetch_tasks db1 = (fetch_tasks Samples.two_tasks ++ [new])%list
       /\ delete_task (id new) db1 = Ok db2
       /\ fetch_tasks db2 = fetch_tasks Samples.two_tasks
       /\ seq db2 = id new.
Proof.
  assert (H : last_id Samples.two_tasks < MAX_ROWID) by reflexivity.
  split; [exact H|].
  exact (add_then_delete_restores_rows "Pay rent" "" "Low" Samples.new_year
           "" Samples.morning Samples.two_tasks H).
Defined.

(** X4: whatever fields it is given, an [update_task] that returns has
    neither added, removed, reordered nor renumbered a row of the table,
    has left the counter alone, and has left every row with another [id]
    exactly as it was. *)
Theorem update_touches_one_id_only (i : Z) (kwargs : list assignment)
    (db db' : store) :
  update_task i kwargs db = Ok db' ->
  seq db' = seq db
  /\ map id (rows db') = map id (rows db)
  /\ (forall n r, nth_error (rows db) n = Some r -> id r <> i ->
        nth_error (rows db') n = Some r).
Proof.
  intros H. apply update_task_rows in H. destruct H as [Hs Hr].
  rewrite Hr.
  split; [exact Hs|]. split; [apply update_keeps_ids|].
  intros n r Hn Hne. rewrite nth_error_map, Hn. simpl.
  destruct (Z.eqb_spec (id r) i); [contradiction | reflexivity].
Qed.

Lemma update_touches_one_id_only_witness :
  update_task 2 [set_priority (Some "High"); set_tags None] Samples.two_tasks
  = Ok (mk_store
          [Samples.report_task;
           assign (assign Samples.call_task (set_priority (Some "High")))
             (set_tags None)] 2)
  /\ nth_error
       (rows
          (mk_store
             [Samples.report_task;
              assign (assign Samples.call_task (set_priority (Some "High")))
                (set_tags None)] 2)) 0
     = Some Samples.report_task.
Proof.
  assert (H : update_task 2 [set_priority (Some "High"); set_tags None]
                Samples.two_tasks
              = Ok (mk_store
                      [Samples.report_task;
                       assign
                         (assign Samples.call_task
                            (set_priority (Some "High")))
                         (set_tags None)] 2)) by reflexivity.
  split; [exact H|].
  refine (proj2 (proj2 (update_touches_one_id_only _ _ _ _ H)) 0%nat
            Samples.report_task eq_refl _).
  simpl. discriminate.
Defined.

(** X5: [title] is [NOT NULL].  An update whose last assignment to [title]
    is [NULL] raises the integrity error exactly when a row has the [id];
    when none has, it returns and the store is as before. *)
Theorem null_title_is_refused (i : Z) (kwargs : list assignment) (db : store) :
  title_null kwargs = true ->
  (In i (ids db) -> update_task i kwargs db = Raise IntegrityError)
  /\ (~ In i (ids db) -> update_task i kwargs db = Ok db).
Proof.
  intros Hn.
  assert (Hk : kwargs <> []) by (intros ->; discriminate Hn).
  split.
  - intros Hin. unfold update_task, well_formed.
    rewrite (StoreFacts.cols_nonempty kwargs Hk).
    now rewrite (update_rows_hit i kwargs (rows db) Hn Hin).
  - intros Hmiss. unfold update_task, well_formed.
    rewrite (StoreFacts.cols_nonempty kwargs Hk).
    rewrite StoreFacts.update_rows_missing by exact Hmiss.
    destruct db; reflexivity.
Qed.

Lemma null_title_is_refused_witness :
  title_null [set_status (Some "Completed"); set_title None] = true
  /\ update_task 1 [set_status (Some "Completed"); set_title None]
       Samples.two_tasks = Raise IntegrityError.
Proof.
  assert (H : title_null [set_status (Some "Completed"); set_title None]
              = true) by reflexivity.
  split; [exact H|].
  apply (proj1 (null_title_is_refused 1 _ Samples.two_tasks H)).
  simpl. tauto.
Defined.

End StoreMore.
(* ------------------------------------------------------------------ *)
(** ** Properties of the edit section and of the checkbox on the store *)

Module EditFormFacts.
Import Text Dates Store TaskList EditForm Defaults EditSection Shape.

(** X6: "Save Changes" is never carried out.  In a run that starts with no
    [edit_id] in the session state, a press of "Save Changes" finds the
    edit block skipped: nothing is drawn or shown and the database is left
    alone.  In such a run, whatever was pressed, a section that completes
    leaves the database as it found it, shows no notice and leaves no
    [edit_id] behind, so the next run starts the same way; and a press of
    "Edit" on a displayed row draws the form of a row with that [id],
    provided the displayed rows have a priority and a status the select
    boxes offer. *)
Theorem save_changes_never_runs (ev : pressed) (df : list task)
    (e_title : string) (e_due : date) (e_desc e_prio e_tags e_status : string)
    (db : store) :
  edit_section save_button None df e_title e_due e_desc e_prio e_tags
    e_status db
  = inl (mk_edit_outcome None None None db)
  /\ (forall out,
        edit_section ev None df e_title e_due e_desc e_prio e_tags e_status
          db = inl out ->
        db_after out = db /\ shown out = None /\ edit_id_after out = None)
  /\ (forall row,
        (forall r, In r df ->
           isin PRIORITIES (priority r) = true
           /\ isin STATUSES (status r) = true) ->
        In row df ->
        exists task,
          In task df /\ id task = id row
          /\ edit_section (edit_button (id row)) None df e_title e_due
               e_desc e_prio e_tags e_status db
             = inl (mk_edit_outcome (Some task) None None db)).
Proof.
  split; [destruct df; reflexivity|]. split.
  - intros out. unfold edit_section.
    destruct df as [|r0 df0] eqn:Hdf; [intros H; injection H as <-; auto|].
    rewrite <- Hdf. clear Hdf. destruct ev as [|i|].
    + intros H. injection H as <-. auto.
    + destruct (existsb (fun r => id r =? i) df).
      * destruct (edit_lookup i df) as [task|]; [|discriminate].
        destruct (isin PRIORITIES (priority task)
                  && isin STATUSES (status task)); [|discriminate].
        intros H. injection H as <-. auto.
      * intros H. injection H as <-. auto.
    + intros H. injection H as <-. auto.
  - intros row Hall Hrow. unfold edit_section.
    assert (Hex : existsb (fun r => id r =? id row) df = true).
    { apply existsb_exists. exists row. split; [exact Hrow|].
      apply Z.eqb_refl. }
    rewrite Hex. unfold edit_lookup.
    destruct df as [|r0 df0] eqn:Hdf; [destruct Hrow|]. rewrite <- Hdf in *.
    destruct (find (fun r => id r =? id row) df) as [task|] eqn:Hf.
    + apply find_some in Hf. destruct Hf as [Hin E].
      apply Z.eqb_eq in E. destruct (Hall task Hin) as [Hp Hs].
      exists task. rewrite Hp, Hs. auto.
    + exfalso. apply (find_none _ _ Hf) in Hrow.
      rewrite Z.eqb_refl in Hrow. discriminate.
Qed.

(** One of the three statuses the widgets offer. *)
Lemma offered_status_cases (s : option string) :
  isin STATUSES s = true ->
  s = Some "Pending" \/ s = Some "In Progress" \/ s = Some "Completed".
Proof.
  destruct s as [t|]; simpl; [|discriminate].
  destruct (String.eqb_spec t "Pending") as [->|_]; [tauto|].
  destruct (String.eqb_spec t "In Progress") as [->|_]; [tauto|].
  destruct (String.eqb_spec t "Completed") as [->|_]; [tauto|].
  discriminate.
Qed.

(** After the status of the rows with an [id] was rewritten, each of them
    has the new status. *)
Lemma rewritten_status (i : Z) (v : option string) (l : list task)
    (r : task) :
  In r (map (fun r0 => if id r0 =? i then assign r0 (set_status v) else r0)
          l) ->
  id r = i -> status r = v.
Proof.
  intros Hr E. apply in_map_iff in Hr. destruct Hr as [r0 [Hr0 _]].
  destruct (Z.eqb_spec (id r0) i) as [_|Hne]; subst r;
    [reflexivity | contradiction].
Qed.

(** X9: ticking the checkbox of an In Progress task and unticking it again
    leaves the task Pending: after the first click every row with the
    task's [id] is Completed, and after the second, made on the row as it
    is then displayed, every such row is Pending. *)
Theorem tick_untick_loses_in_progress (row : task) (db : store) :
  In row (rows db) -> status row = Some "In Progress" ->
  exists db1,
    status_checkbox row true db
    = Ok (Some (st_success "Status updated!"), db1)
    /\ (forall r, In r (fetch_tasks db1) -> id r = id row ->
          status r = Some "Completed")
    /\ (forall row1, In row1 (fetch_tasks db1) -> id row1 = id row ->
          exists db2,
            status_checkbox row1 false db1
            = Ok (Some (st_success "Status updated!"), db2)
            /\ (exists r, In r (fetch_tasks db2) /\ id r = id row)
            /\ (forall r, In r (fetch_tasks db2) -> id r = id row ->
                  status r = Some "Pending")).
Proof.
  intros Hin Hst. destruct db as [rs s].
  set (done := fun r => if id r =? id row
                        then assign r (set_status (Some "Completed"))
                        else r).
  assert (H1 : status_checkbox row true (mk_store rs s)
               = Ok (Some (st_success "Status updated!"),
                     mk_store (map done rs) s)).
  { unfold status_checkbox. rewrite Hst. simpl. unfold update_task. simpl.
    now rewrite StoreFacts.update_rows_status. }
  exists (mk_store (map done rs) s). split; [exact H1|].
  assert (Hdone : forall r,
             In r (fetch_tasks (mk_store (map done rs) s)) ->
             id r = id row -> status r = Some "Completed").
  { intros r Hr E. unfold done in Hr.
    rewrite (StoreFacts.fetch_tasks_status _ _ rs s s) in Hr.
    exact (rewritten_status _ _ _ _ Hr E). }
  split; [exact Hdone|].
  intros row1 Hrow1 E1. pose proof (Hdone row1 Hrow1 E1) as Hst1.
  set (undone := fun r => if id r =? id row1
                          then assign r (set_status (Some "Pending"))
                          else r).
  exists (mk_store (map undone (map done rs)) s). split.
  - unfold status_checkbox. rewrite Hst1. simpl. unfold update_task. simpl.
    now rewrite StoreFacts.update_rows_status.
  - unfold undone.
    rewrite (StoreFacts.fetch_tasks_status _ _ (map done rs) s s).
    split.
    + exists (assign row1 (set_status (Some "Pending"))).
      split; [|exact E1]. apply in_map_iff. exists row1.
      rewrite Z.eqb_refl. split; [reflexivity | exact Hrow1].
    + intros r Hr E. rewrite <- E1 in E.
      exact (rewritten_status _ _ _ _ Hr E).
Qed.

Lemma tick_untick_loses_in_progress_witness :
  In Samples.call_task (rows Samples.two_tasks)
  /\ status Samples.call_task = Some "In Progress"
  /\ exists db1,
       status_checkbox Samples.call_task true Samples.two_tasks
       = Ok (Some (st_success "Status updated!"), db1)
       /\ map status (fetch_tasks db1) = [Some "Pending"; Some "Completed"].
Proof.
  assert (H1 : In Samples.call_task (rows Samples.two_tasks))
    by (simpl; tauto).
  assert (H2 : status Samples.call_task = Some "In Progress") by reflexivity.
  split; [exact H1|]. split; [exact H2|].
  destruct (tick_untick_loses_in_progress Samples.call_task
              Samples.two_tasks H1 H2) as [db1 [Hc _]].
  exists db1. split; [exact Hc|].
  cbv in Hc. injection Hc as <-. reflexivity.
Defined.

End EditFormFacts.
(* ------------------------------------------------------------------ *)
(** ** Further properties of the filters, the report and the add form *)

Module FilterFacts.
Import Text Dates Store TaskList Defaults Shape.

Lemma subseq_filter (A : Type) (p : A -> bool) (l : list A) :
  subseq (filter p l) l.
Proof.
  induction l as [|x l IH]; simpl; [constructor|].
  destruct (p x); constructor; exact IH.
Qed.

Lemma filter_idem (A : Type) (p : A -> bool) (l : list A) :
  filter p (filter p l) = filter p l.
Proof.
  rewrite TaskListFacts.filter_filter. apply filter_ext.
  intros x. destruct (p x); reflexivity.
Qed.

(** The block is one pass with the test [shown_by], whenever the typed
    text, if there is one, compiles. *)
Lemma apply_filters_shown_by (re : re_module) (f : filters)
    (df : list task) :
  truthy (tag_f f) = false \/ compiles re (tag_f f) = true ->
  apply_filters re f df = Some (filter (shown_by re f) df).
Proof.
  intros Hok. unfold apply_filters.
  destruct (due_f f) as [d|] eqn:Hd; destruct (truthy (tag_f f)) eqn:Ht;
    try (destruct Hok as [Hok | Hok]; [discriminate Hok | rewrite Hok]);
    f_equal; rewrite !TaskListFacts.filter_filter; apply filter_ext;
    intros r; unfold shown_by; rewrite Hd, Ht; simpl;
    rewrite ?andb_true_r, ?andb_assoc; reflexivity.
Qed.

Lemma apply_filters_returns (re : re_module) (f : filters)
    (df out : list task) :
  apply_filters re f df = Some out ->
  (truthy (tag_f f) = false \/ compiles re (tag_f f) = true)
  /\ out = filter (shown_by re f) df.
Proof.
  intros H.
  assert (Hok : truthy (tag_f f) = false \/ compiles re (tag_f f) = true).
  { unfold apply_filters in H. destruct (truthy (tag_f f)); [|now left].
    destruct (compiles re (tag_f f)); [now right | discriminate]. }
  split; [exact Hok|].
  rewrite (apply_filters_shown_by re f df Hok) in H. now injection H.
Qed.

(** X10: what the filter block returns -- it returns unless the typed text
    is an invalid pattern -- is the table with rows left out, order kept,
    and every row it keeps has its status among the selected statuses and
    its priority among the selected priorities (so a row without status or
    priority is never listed), is due no later than the date when one is
    set, and has tags in which the pattern is found when a text is
    typed. *)
Theorem filtered_rows_pass_every_filter (re : re_module) (f : filters)
    (df out : list task) :
  apply_filters re f df = Some out ->
  subseq out df
  /\ forall r, In r out ->
       isin (status_f f) (status r) = true
       /\ isin (prio_f f) (priority r) = true
       /\ status r <> None /\ priority r <> None
       /\ (forall d, due_f f = Some d -> due_date r <= d)
       /\ (tag_f f <> "" ->
           exists t, tags r = Some t /\ search re (tag_f f) t = true).
Proof.
  intros H. apply apply_filters_returns in H. destruct H as [_ ->].
  split; [apply subseq_filter|].
  intros r Hr. apply filter_In in Hr. destruct Hr as [_ Hr].
  unfold shown_by in Hr.
  apply andb_prop in Hr. destruct Hr as [Hr Htag].
  apply andb_prop in Hr. destruct Hr as [Hr Hdue].
  apply andb_prop in Hr. destruct Hr as [Hst Hpr].
  split; [exact Hst|]. split; [exact Hpr|].
  split; [intros E; rewrite E in Hst; discriminate|].
  split; [intros E; rewrite E in Hpr; discriminate|].
  split.
  - intros d Hd. rewrite Hd in Hdue. now apply Z.leb_le.
  - intros Hne. destruct (tag_f f) as [|c p] eqn:Et; [congruence|].
    simpl in Htag. unfold str_contains in Htag.
    destruct (tags r) as [t|]; [|discriminate]. now exists t.
Qed.

Lemma filtered_rows_pass_every_filter_witness :
  apply_filters Samples.dots_only Samples.dotted_filter
    (rows Samples.two_tasks)
  = Some [Samples.report_task]
  /\ subseq [Samples.report_task] (rows Samples.two_tasks).
Proof.
  assert (H : apply_filters Samples.dots_only Samples.dotted_filter
                (rows Samples.two_tasks)
              = Some [Samples.report_task]) by reflexivity.
  split; [exact H|].
  exact (proj1 (filtered_rows_pass_every_filter _ _ _ _ H)).
Defined.

(** X11: filtering what the block returned, with the same widgets, returns
    it unchanged. *)
Theorem filtering_twice_changes_nothing (re : re_module) (f : filters)
    (df out : list task) :
  apply_filters re f df = Some out -> apply_filters re f out = Some out.
Proof.
  intros H. apply apply_filters_returns in H. destruct H as [Hok ->].
  rewrite (apply_filters_shown_by re f _ Hok). now rewrite filter_idem.
Qed.

Lemma filtering_twice_changes_nothing_witness :
  apply_filters Samples.dots_only Samples.dotted_filter
    (rows Samples.two_tasks)
  = Some [Samples.report_task]
  /\ apply_filters Samples.dots_only Samples.dotted_filter
       [Samples.report_task]
     = Some [Samples.report_task].
Proof.
  assert (H : apply_filters Samples.dots_only Samples.dotted_filter
                (rows Samples.two_tasks)
              = Some [Samples.report_task]) by reflexivity.
  split; [exact H|].
  exact (filtering_twice_changes_nothing _ _ _ _ H).
Defined.

(** X12: with the sidebar untouched the list shows every task whose status
    and priority are among those the widgets offer, in table order. *)
Theorem untouched_sidebar_shows_all (re : re_module) (df : list task) :
  (forall r, In r df ->
     isin STATUSES (status r) = true /\ isin PRIORITIES (priority r) = true) ->
  apply_filters re default_filters df = Some df.
Proof.
  intros Hall. rewrite apply_filters_shown_by by (left; reflexivity).
  f_equal. apply StoreFacts.filter_all. intros r Hr.
  destruct (Hall r Hr) as [Hs Hp]. unfold shown_by. simpl.
  rewrite Hs, Hp. reflexivity.
Qed.

Lemma untouched_sidebar_shows_all_witness :
  (forall r, In r (rows Samples.two_tasks) ->
     isin STATUSES (status r) = true /\ isin PRIORITIES (priority r) = true)
  /\ apply_filters Samples.dots_only default_filters (rows Samples.two_tasks)
     = Some (rows Samples.two_tasks).
Proof.
  assert (H : forall r, In r (rows Samples.two_tasks) ->
                isin STATUSES (status r) = true
                /\ isin PRIORITIES (priority r) = true).
  { intros r [<- | [<- | []]]; split; reflexivity. }
  split; [exact H|].
  exact (untouched_sidebar_shows_all Samples.dots_only
           (rows Samples.two_tasks) H).
Defined.

Lemma match_here_covers_prefix (pat s : string) :
  count_lf s = O ->
  starts_with (lower_str pat) (lower_str s) = true ->
  match_here pat s = true.
Proof.
  revert s. induction pat as [|p pat IH]; intros s Hlf Hpre.
  - destruct s; reflexivity.
  - destruct s as [|c s]; simpl in *; [discriminate|].
    apply andb_prop in Hpre. destruct Hpre as [Hc Hrest].
    destruct (Ascii.eqb c LF) eqn:Hnl; [discriminate|].
    rewrite (IH s Hlf Hrest), andb_true_r.
    destruct (Ascii.eqb p "."); [reflexivity | exact Hc].
Qed.

Lemma re_search_covers_contains (pat s : string) :
  count_lf s = O -> contains_nocase pat s = true -> re_search pat s = true.
Proof.
  unfold contains_nocase. induction s as [|c s IH]; simpl; intros Hlf H.
  - rewrite orb_false_r in *. now apply match_here_covers_prefix.
  - destruct (Ascii.eqb c LF) eqn:Hnl; [discriminate|]. simpl in Hlf.
    apply orb_prop in H. destruct H as [H | H].
    + rewrite (match_here_covers_prefix pat (String c s)); [reflexivity| |].
      * simpl. now rewrite Hnl.
      * exact H.
    + rewrite (IH Hlf H). apply orb_true_r.
Qed.

(** X13: when the typed text has no special character but dots, reading
    it as a pattern never hides a task that contains it: a task that passes
    the four conditions with the tag condition read as case-insensitive
    containment, and whose tags hold no line feed, is in the list the block
    returns. *)
Theorem containing_tasks_are_listed (re : re_module) (f : filters)
    (df : list task) (r : task) :
  dots_and_literals re -> in_fragment (tag_f f) = true ->
  In r df -> satisfies f r = true -> lf_free (tags r) ->
  exists out, apply_filters re f df = Some out /\ In r out.
Proof.
  intros Hre Hfrag Hr Hsat Hlf. destruct (Hre _ Hfrag) as [Hc Hs].
  rewrite (apply_filters_shown_by re f df (or_intror Hc)).
  eexists. split; [reflexivity|]. apply filter_In. split; [exact Hr|].
  unfold satisfies in Hsat. unfold shown_by.
  apply andb_prop in Hsat. destruct Hsat as [Hsat Htag]. rewrite Hsat.
  simpl. destruct (truthy (tag_f f)); [|reflexivity]. simpl in *.
  unfold str_contains. destruct (tags r) as [t|] eqn:Et; [|discriminate].
  rewrite Hs. apply re_search_covers_contains; [now apply Hlf | exact Htag].
Qed.

Lemma containing_tasks_are_listed_witness :
  dots_and_literals Samples.dots_only
  /\ exists out,
       apply_filters Samples.dots_only
         (mk_filters STATUSES PRIORITIES None "OR") (rows Samples.two_tasks)
       = Some out
       /\ In Samples.report_task out.
Proof.
  assert (H : dots_and_literals Samples.dots_only)
    by (intros pat Hp; split; [exact Hp | reflexivity]).
  split; [exact H|].
  refine (containing_tasks_are_listed Samples.dots_only
            (mk_filters STATUSES PRIORITIES None "OR")
            (rows Samples.two_tasks) Samples.report_task H eq_refl _
            eq_refl _).
  - simpl. tauto.
  - intros t Ht. injection Ht as <-. reflexivity.
Defined.

(** X8: drawing the list writes nothing.  For a row the filter block
    returned, the statuses selected being among the three the multiselect
    offers, the checkbox in its initial state (ticked exactly when the row
    is Completed) stands for the row's own status: the handler calls no
    update, shows no notice and leaves the database as it is. *)
Theorem untouched_checkbox_writes_nothing (re : re_module) (f : filters)
    (df out : list task) (row : task) (db : store) :
  apply_filters re f df = Some out ->
  (forall s, In s (status_f f) -> In s STATUSES) ->
  In row out ->
  status_checkbox row (default_checked row) db = Ok (None, db).
Proof.
  intros H Hopts Hrow. apply apply_filters_returns in H.
  destruct H as [_ ->]. apply filter_In in Hrow. destruct Hrow as [_ Hrow].
  unfold shown_by in Hrow.
  apply andb_prop in Hrow. destruct Hrow as [Hrow _].
  apply andb_prop in Hrow. destruct Hrow as [Hrow _].
  apply andb_prop in Hrow. destruct Hrow as [Hst _].
  assert (Hoff : isin STATUSES (status row) = true).
  { destruct (status row) as [t|]; [|discriminate]. simpl in Hst.
    apply existsb_exists in Hst. destruct Hst as [x [Hx E]].
    apply String.eqb_eq in E. subst x.
    unfold isin. apply existsb_exists. exists t.
    split; [now apply Hopts | apply String.eqb_refl]. }
  apply EditFormFacts.offered_status_cases in Hoff.
  unfold status_checkbox, default_checked, new_status.
  destruct Hoff as [-> | [-> | ->]]; reflexivity.
Qed.

Lemma untouched_checkbox_writes_nothing_witness :
  status_checkbox Samples.call_task (default_checked Samples.call_task)
    Samples.two_tasks
  = Ok (None, Samples.two_tasks).
Proof.
  refine (untouched_checkbox_writes_nothing Samples.dots_only default_filters
            (rows Samples.two_tasks) (rows Samples.two_tasks)
            Samples.call_task Samples.two_tasks eq_refl _ _).
  - intros s Hs. exact Hs.
  - simpl. tauto.
Defined.

End FilterFacts.
(* ------------------------------------------------------------------ *)
(** ** The report's two faces, and what the add form stores *)

Module FormAndReportFacts.
Import Text Dates Store AddForm Analytics Shape.

(** X14: the block writes "No tasks due in the next 7 days." exactly when
    every task is due later than [today + 7] (so on an empty table too);
    otherwise it shows a table, which is not empty and has one line for
    each task due by then. *)
Theorem report_sentence_or_table (today : date) (db : store) :
  (upcoming_deadlines today db
   = sentence (st_write "No tasks due in the next 7 days.")
   <-> forall r, In r (rows db) -> today + 7 < due_date r)
  /\ (forall lines, upcoming_deadlines today db = st_table lines ->
        lines <> []
        /\ List.length lines
           = List.length
               (filter (fun r => due_date r <=? today + 7) (rows db))).
Proof.
  pose proof (AnalyticsFacts.upcoming_lines_fetched today db) as Hlines.
  pose proof (AnalyticsFacts.reported_perm today db) as Hperm.
  unfold upcoming_deadlines in *.
  destruct (upcoming today (fillna (fetch_tasks db))) as [|u us] eqn:Hup.
  - assert (Hnone : filter (fun r => due_date r <=? today + 7) (rows db) = []).
    { destruct (filter _ (rows db)); [reflexivity | discriminate Hlines]. }
    split; [|intros lines H; discriminate H].
    split; [|reflexivity]. intros _ r Hr.
    destruct (Z.leb_spec (due_date r) (today + 7)) as [Hle|Hgt]; [|exact Hgt].
    exfalso. assert (Hin : In r []); [|destruct Hin].
    rewrite <- Hnone. apply filter_In. split; [exact Hr|].
    now apply Z.leb_le.
  - split.
    + split; [discriminate|]. intros Hall. exfalso.
      assert (Hin : In (select u) (map select (u :: us))) by (left; reflexivity).
      rewrite Hlines in Hin. apply in_map_iff in Hin.
      destruct Hin as [r [_ Hr]]. apply filter_In in Hr.
      destruct Hr as [Hr Hdue]. apply Z.leb_le in Hdue.
      specialize (Hall r Hr). lia.
    + intros lines H. injection H as Hl.
      assert (Hp : Permutation lines
                     (map line_of
                        (filter (fun r => due_date r <=? today + 7)
                           (rows db))))
        by (rewrite <- Hl; exact Hperm).
      split.
      * intros E. rewrite E in Hp. apply Permutation_nil in Hp.
        rewrite <- Hlines in Hp. discriminate Hp.
      * rewrite (Permutation_length Hp). apply length_map.
Qed.

Lemma rstrip_idem (s : string) : rstrip (rstrip s) = rstrip s.
Proof.
  induction s as [|c s IH]; simpl; [reflexivity|].
  destruct (rstrip s) as [|d r] eqn:Hr.
  - destruct (isspace c) eqn:Hc; simpl; [reflexivity|]. now rewrite Hc.
  - change (rstrip (String c (String d r)))
      with (match rstrip (String d r) with
            | EmptyString =>
                if isspace c then EmptyString else String c EmptyString
            | String a r' => String c (String a r')
            end).
    rewrite IH. reflexivity.
Qed.

Lemma lstrip_head (s : string) :
  lstrip s = "" \/ exists c t, lstrip s = String c t /\ isspace c = false.
Proof.
  induction s as [|c s IH]; simpl; [now left|].
  destruct (isspace c) eqn:Hc; [exact IH|]. right. now exists c, s.
Qed.

Lemma rstrip_head (c : ascii) (t : string) :
  isspace c = false -> exists t', rstrip (String c t) = String c t'.
Proof.
  intros Hc. simpl. destruct (rstrip t); rewrite ?Hc; eauto.
Qed.

(** Stripping is done once and for all. *)
Lemma strip_idem (s : string) : strip (strip s) = strip s.
Proof.
  unfold strip. destruct (lstrip_head s) as [-> | [c [t [-> Hc]]]];
    [reflexivity|].
  destruct (rstrip_head c t Hc) as [t' Ht']. rewrite Ht' at 1.
  simpl lstrip. rewrite Hc, <- Ht'. apply rstrip_idem.
Qed.

(** X15: every task the add form stores has a title that is not empty and
    has no whitespace at either end: the row appended holds the stripped
    title, description and tags and the status Pending, and if no title in
    the table was empty before, none is afterwards. *)
Theorem form_stores_trimmed_title (title_ : string) (due : date)
    (desc priority_ tags_in : string) (now : datetime) (db db' : store) :
  add_form_submit title_ due desc priority_ tags_in now db
  = Ok (st_success "Task added!", db') ->
  exists new,
    fetch_tasks db' = (fetch_tasks db ++ [new])%list
    /\ title new = strip title_ /\ title new <> ""
    /\ strip (title new) = title new
    /\ description new = Some (strip desc)
    /\ tags new = Some (strip tags_in)
    /\ priority new = Some priority_ /\ due_date new = due
    /\ status new = Some "Pending"
    /\ (titles_present db -> titles_present db').
Proof.
  unfold add_form_submit.
  destruct (strip title_) as [|c t] eqn:Hs; [discriminate|]. simpl.
  destruct (add_task (String c t) (strip desc) priority_ due (strip tags_in)
              now db) as [[ret db1]|e] eqn:Hadd; [|discriminate].
  intros H. injection H as <-.
  apply StoreMore.add_task_rows in Hadd. destruct Hadd as [_ [_ Hrows]].
  destruct db as [rs s], db1 as [rs1 s1]. cbn [rows] in Hrows. subst rs1.
  eexists. split; [apply (StoreFacts.fetch_tasks_app rs _ s)|]. simpl.
  split; [reflexivity|]. split; [discriminate|].
  split; [rewrite <- Hs; apply strip_idem|].
  repeat (split; [reflexivity|]).
  intros Htp r Hr. cbn [rows] in Hr. apply in_app_or in Hr.
  destruct Hr as [Hr | [<- | []]]; [now apply Htp | discriminate].
Qed.

Lemma form_stores_trimmed_title_witness :
  exists db',
    add_form_submit "  Pay rent " Samples.new_year " by the 5th" "Medium" ""
      Samples.morning Samples.two_tasks = Ok (st_success "Task added!", db')
    /\ map title (fetch_tasks db')
       = ["Write report"; "Call the bank"; "Pay rent"].
Proof.
  eexists. split; [reflexivity|].
  destruct (form_stores_trimmed_title "  Pay rent " Samples.new_year
              " by the 5th" "Medium" "" Samples.morning Samples.two_tasks _
              eq_refl) as [new [Hrows [Ht _]]].
  rewrite Hrows, map_app. simpl. rewrite Ht. reflexivity.
Defined.

End FormAndReportFacts.
(* ------------------------------------------------------------------ *)
(** ** Deleting one task, finding the edited task, listing a new task *)

Module ListAndDeleteFacts.
Import Text Dates Store AddForm TaskList EditForm Defaults Shape.

Lemma delete_one_length (i : Z) (rs : list task) :
  NoDup (map id rs) -> In i (map id rs) ->
  S (List.length (filter (fun r => negb (id r =? i)) rs)) = List.length rs.
Proof.
  induction rs as [|r rs IH]; simpl; intros Hnd Hin; [destruct Hin|].
  inversion Hnd as [|x l Hnot Hnd']; subst.
  destruct (Z.eqb_spec (id r) i) as [E|Hne]; simpl.
  - rewrite StoreFacts.filter_all; [reflexivity|].
    intros r' Hr'. destruct (Z.eqb_spec (id r') i) as [E'|_]; [|reflexivity].
    exfalso. apply Hnot. rewrite E, <- E'. now apply in_map.
  - f_equal. apply IH; [exact Hnd'|]. destruct Hin; [contradiction|assumption].
Qed.

(** X16: on a table with distinct identifiers, deleting the [id] of a task
    removes that one task and nothing else: the table is one row shorter,
    and it holds exactly the rows with another [id], in their order. *)
Theorem delete_removes_exactly_one (i : Z) (db : store) :
  well_kept db -> In i (ids db) ->
  exists db',
    delete_task i db = Ok db'
    /\ S (List.length (rows db')) = List.length (rows db)
    /\ subseq (rows db') (rows db)
    /\ (forall r, In r (rows db') <-> In r (rows db) /\ id r <> i).
Proof.
  intros [Hnd _] Hin. eexists. split; [reflexivity|]. simpl.
  split; [exact (delete_one_length i (rows db) Hnd Hin)|].
  split; [apply FilterFacts.subseq_filter|].
  intros r. rewrite filter_In.
  destruct (Z.eqb_spec (id r) i); simpl; intuition congruence.
Qed.

Lemma delete_removes_exactly_one_witness :
  well_kept Samples.two_tasks /\ In 1 (ids Samples.two_tasks)
  /\ exists db',
       delete_task 1 Samples.two_tasks = Ok db'
       /\ S (List.length (rows db')) = List.length (rows Samples.two_tasks).
Proof.
  assert (H1 : well_kept Samples.two_tasks) by StoreMore.concrete_table.
  assert (H2 : In 1 (ids Samples.two_tasks)) by (simpl; tauto).
  split; [exact H1|]. split; [exact H2|].
  destruct (delete_removes_exactly_one 1 Samples.two_tasks H1 H2)
    as [db' [Hd [Hl _]]].
  exists db'. split; [exact Hd | exact Hl].
Defined.

(** X17: the edit form finds the task whose "Edit" button was clicked.  When
    the displayed rows have distinct identifiers, looking up the [id] of a
    displayed row gives that row; and the lookup fails (the [IndexError] of
    [iloc[0]]) exactly when no displayed row has the [id]. *)
Theorem edit_lookup_finds_clicked_row (df : list task) :
  NoDup (map id df) ->
  (forall row, In row df -> edit_lookup (id row) df = Some row)
  /\ (forall eid, edit_lookup eid df = None <-> ~ In eid (map id df)).
Proof.
  intros Hnd. unfold edit_lookup. split.
  - induction df as [|r df IH]; simpl; intros row Hrow; [destruct Hrow|].
    inversion Hnd as [|x l Hnot Hnd']; subst.
    destruct Hrow as [<- | Hrow]; [now rewrite Z.eqb_refl|].
    destruct (Z.eqb_spec (id r) (id row)) as [E|_]; [|now apply IH].
    exfalso. apply Hnot. rewrite E. now apply in_map.
  - intros eid. clear Hnd. induction df as [|r df IH]; simpl; [tauto|].
    destruct (Z.eqb_spec (id r) eid) as [E|Hne].
    + split; [discriminate | tauto].
    + rewrite IH. tauto.
Qed.

Lemma edit_lookup_finds_clicked_row_witness :
  NoDup (map id (rows Samples.two_tasks))
  /\ edit_lookup 2 (rows Samples.two_tasks) = Some Samples.call_task.
Proof.
  assert (H : NoDup (map id (rows Samples.two_tasks)))
    by StoreMore.concrete_table.
  split; [exact H|].
  apply (proj1 (edit_lookup_finds_clicked_row _ H) Samples.call_task).
  simpl. tauto.
Defined.

(** Rows that read back alike in everything but [created_at] pass the
    filters alike. *)
Lemma shown_by_read_row (re : re_module) (f : filters)
    (format : option bool) (r : task) :
  shown_by re f (read_row format r) = shown_by re f r.
Proof. reflexivity. Qed.

(** X18: a task just added through the form is on the list.  When the
    priority is one the select box offers, the form's submit succeeds and
    the sidebar is untouched, the filter block run on the reloaded table
    returns what it returned before, followed by the new task. *)
Theorem added_task_is_listed (re : re_module) (title_ : string) (due : date)
    (desc priority_ tags_in : string) (now : datetime) (db db' : store) :
  add_form_submit title_ due desc priority_ tags_in now db
  = Ok (st_success "Task added!", db') ->
  isin PRIORITIES (Some priority_) = true ->
  exists shown new,
    apply_filters re default_filters (fetch_tasks db')
    = Some (shown ++ [new])%list
    /\ apply_filters re default_filters (fetch_tasks db) = Some shown
    /\ title new = strip title_
    /\ ~ In (id new) (ids db).
Proof.
  intros Hadd Hprio. unfold add_form_submit in Hadd.
  destruct (negb (truthy (strip title_))); [discriminate|].
  destruct (add_task (strip title_) (strip desc) priority_ due (strip tags_in)
              now db) as [[ret db1]|e] eqn:Ha; [|discriminate].
  injection Hadd as <-.
  apply StoreMore.add_task_rows in Ha. destruct Ha as [_ [_ Hrows]].
  rewrite !(FilterFacts.apply_filters_shown_by re) by (left; reflexivity).
  destruct db as [rs s], db1 as [rs1 s1]. cbn [rows] in Hrows. subst rs1.
  rewrite (StoreFacts.fetch_tasks_app rs _ s), filter_app.
  eexists. eexists. split; [|split; [reflexivity|]].
  - f_equal. f_equal. cbn [filter]. rewrite shown_by_read_row.
    replace (shown_by re default_filters _) with true; [reflexivity|].
    unfold shown_by. cbn. simpl in Hprio. rewrite Hprio. reflexivity.
  - simpl. split; [reflexivity|].
    intros Hin. apply StoreFacts.ids_le_last_id in Hin. lia.
Qed.

Lemma added_task_is_listed_witness :
  exists shown new,
    apply_filters Samples.dots_only default_filters
      (fetch_tasks
         (mk_store
            (rows Samples.two_tasks
             ++ [mk_task 3 "Pay rent" (Some "") (Some "Low") Samples.new_year
                   (Some "") (Some "Pending") (Some Samples.morning)])
            3))
    = Some (shown ++ [new])%list
    /\ title new = "Pay rent".
Proof.
  destruct (added_task_is_listed Samples.dots_only " Pay rent"
              Samples.new_year "" "Low" "" Samples.morning Samples.two_tasks
              _ eq_refl eq_refl)
    as [shown [new [H1 [_ [H2 _]]]]].
  exists shown, new. split; [exact H1 | exact H2].
Defined.

End ListAndDeleteFacts.

(* ------------------------------------------------------------------ *)
(** ** What the page reads back of a creation time *)

Module ReadBackFacts.
Import Text Dates Store.

(** X7: the creation time of a new task is stored as given but not always
    read back.  After [add_task], [fetch_tasks] shows the earlier rows as
    before and then the new row; on an empty table the new row's
    [created_at] is the time of the call; on a table whose first row has a
    timestamp it is the time of the call only if both timestamps are on a
    whole second or both are not, and [NaT] otherwise. *)
Theorem created_at_read_back (title_ desc prio : string) (due : date)
    (tags_ : string) (now : datetime) (db : store) :
  last_id db < MAX_ROWID ->
  exists db' read,
    add_task title_ desc prio due tags_ now db = Ok (None, db')
    /\ fetch_tasks db' = (fetch_tasks db ++ [read])%list
    /\ (rows db = [] -> created_at read = Some now)
    /\ (forall first t0 others,
          rows db = first :: others -> created_at first = Some t0 ->
          created_at read
          = (if Bool.eqb (has_fraction now) (has_fraction t0)
             then Some now else None)).
Proof.
  intros Hroom. unfold add_task.
  destruct (Z.ltb_spec MAX_ROWID (last_id db + 1)) as [Hfull|_]; [lia|].
  destruct db as [rs s].
  eexists. eexists. split; [reflexivity|].
  split; [apply (StoreFacts.fetch_tasks_app rs _ s)|].
  cbn [rows created_at read_row]. rewrite map_app.
  cbn [map created_at]. rewrite StoreFacts.inferred_format_app. split.
  - intros ->. simpl. now rewrite Bool.eqb_reflx.
  - intros first t0 others -> Hc. simpl. rewrite Hc. reflexivity.
Qed.

Lemma created_at_read_back_witness :
  last_id Samples.two_tasks < MAX_ROWID
  /\ exists db',
       add_task "Pay rent" "" "Low" Samples.new_year "" Samples.ten_sharp
         Samples.two_tasks = Ok (None, db')
       /\ map created_at (rows db')
          = [Some Samples.morning; Some Samples.morning;
             Some Samples.ten_sharp]
       /\ map created_at (fetch_tasks db')
          = [Some Samples.morning; Some Samples.morning; None].
Proof.
  assert (H : last_id Samples.two_tasks < MAX_ROWID) by reflexivity.
  split; [exact H|].
  destruct (created_at_read_back "Pay rent" "" "Low" Samples.new_year ""
              Samples.ten_sharp Samples.two_tasks H)
    as [db' [read [Hadd _]]].
  exists db'. split; [exact Hadd|].
  cbv in Hadd. injection Hadd as <-. split; reflexivity.
Defined.

End ReadBackFacts.
